(** * PR readiness classification: the [fetch-github-pr] tool and the
      [pr-readiness] widget

    The repository holds two revisions of the MCP server tool
    [fetch-github-pr] (server "my-mcp-server" and server
    "github-pr-readiness") and the dashboard widget that derives the
    "next actions" list.  Both tools fetch a pull request, its reviews and
    its check runs, and then thread a mutable [status] variable and a
    mutable [issues] array through four sequential conditionals.  The
    network retrieval is input here: a [Snapshot] is the already parsed
    JSON the conditionals read. *)

From Stdlib Require Import String List Arith Bool Lia.
From Stdlib Require Import DecimalString ZArith.
Import ListNotations.
Open Scope string_scope.

(** ** JavaScript values the tool relies on *)

Module Js.

(** Template-literal interpolation [`${n}`] of a non-negative integer. *)
Definition num_to_string (n : nat) : string :=
  NilEmpty.string_of_uint (Nat.to_uint n).

(** [a || b] on numbers: [0] is falsy. *)
Definition or_num (a b : nat) : nat :=
  if Nat.eqb a 0 then b else a.

(** [x?.length || b]: an absent array gives [undefined], which is falsy. *)
Definition opt_length_or {A : Type} (x : option (list A)) (b : nat) : nat :=
  match x with
  | None => b
  | Some l => or_num (length l) b
  end.

(** [x || []] on an array that may be absent. *)
Definition or_empty {A : Type} (x : option (list A)) : list A :=
  match x with
  | None => []
  | Some l => l
  end.

(** [a || b] on strings that may be absent: [""] is falsy. *)
Definition or_str (a : option string) (b : string) : string :=
  match a with
  | Some s => if String.eqb s "" then b else s
  | None => b
  end.

(** [arr.push(x)] appends at the end. *)
Definition push {A : Type} (arr : list A) (x : A) : list A :=
  (arr ++ [x])%list.

(** [arr.slice(0, n)]. *)
Definition slice0 {A : Type} (n : nat) (arr : list A) : list A :=
  firstn n arr.

(** [x === s] for a value that is a string or [null]. *)
Definition opt_str_eq (x : option string) (s : string) : bool :=
  match x with
  | Some y => String.eqb y s
  | None => false
  end.

End Js.

(** ** The fetched GitHub data *)

Record Reviewer := { login : string }.

Record Review := { review_state : string }.

(** A check run of the head commit: [conclusion] is [null] until the run
    has completed. *)
Record CheckRun := {
  cr_name : option string;
  cr_status : string;
  cr_conclusion : option string
}.

(** The fields of the pull-request object that the classification reads.
    [mergeable] is [true], [false] or [null]; [requested_reviewers] is read
    through [?.] and so may be absent. *)
Record PrData := {
  requested_reviewers : option (list Reviewer);
  mergeable : option bool;
  draft : bool
}.

Record Snapshot := {
  prData : PrData;
  reviews : list Review;
  check_runs : option (list CheckRun)
}.

Inductive Status := ready | pending | not_ready.

Definition status_to_string (s : Status) : string :=
  match s with
  | ready => "ready"
  | pending => "pending"
  | not_ready => "not-ready"
  end.

Inductive CheckState := st_success | st_failure | st_pending | st_error.

Record Check := { name : string; state : CheckState }.

(** The two mutable locals [status] and [issues]. *)
Record Acc := { status : Status; issues : list string }.

(** [let status = "ready"; const issues = [];] *)
Definition acc_init : Acc := {| status := ready; issues := [] |}.

(** [status = status === "ready" ? "pending" : "not-ready"] *)
Definition soften (s : Status) : Status :=
  match s with
  | ready => pending
  | _ => not_ready
  end.

(** [reviews.filter((r) => r.state === "APPROVED").length] *)
Definition count_approvals (rs : list Review) : nat :=
  length (filter (fun r => String.eqb (review_state r) "APPROVED") rs).

(** [prData.mergeable === false] *)
Definition has_conflicts (p : PrData) : bool :=
  match mergeable p with
  | Some false => true
  | _ => false
  end.

Definition conflicts_msg : string :=
  "Resolve the existing merge conflicts before merging".

Definition draft_msg : string := "PR is still in draft".

(** [`Needs ${n} more approval(s)`] *)
Definition approvals_msg (n : nat) : string :=
  "Needs " ++ Js.num_to_string n ++ " more approval(s)".

(** [`${n} check(s) failing`] *)
Definition checks_msg (n : nat) : string :=
  Js.num_to_string n ++ " check(s) failing".

(** ** Server "github-pr-readiness" (the revision with normalized checks) *)

Module Readiness.

Definition approvals (s : Snapshot) : nat := count_approvals (reviews s).

(** [prData.requested_reviewers?.map((r) => r.login) || []] *)
Definition requestedReviewersList (s : Snapshot) : list string :=
  map login (Js.or_empty (requested_reviewers (prData s))).

(** [Math.max(1, prData.requested_reviewers?.length || 1)] *)
Definition requiredApprovals (s : Snapshot) : nat :=
  Nat.max 1 (Js.opt_length_or (requested_reviewers (prData s)) 1).

(** The conclusion-to-state chain of conditionals. *)
Definition normalize (conclusion : option string) : CheckState :=
  if Js.opt_str_eq conclusion "success" then st_success
  else if Js.opt_str_eq conclusion "failure" then st_failure
  else if Js.opt_str_eq conclusion "cancelled" then st_error
  else st_pending.

(** [checkRuns.map((c) => ({ name: c.name || c.conclusion || "Check",
    state: ... }))] *)
Definition to_check (c : CheckRun) : Check :=
  {| name := Js.or_str (cr_name c) (Js.or_str (cr_conclusion c) "Check");
     state := normalize (cr_conclusion c) |}.

Definition checks (s : Snapshot) : list Check :=
  map to_check (Js.or_empty (check_runs s)).

Definition hasConflicts (s : Snapshot) : bool := has_conflicts (prData s).

Definition is_failing (c : Check) : bool :=
  match state c with
  | st_failure | st_error => true
  | _ => false
  end.

(** [checks.filter((c) => c.state === "failure" || c.state === "error")] *)
Definition failingChecks (s : Snapshot) : list Check :=
  filter is_failing (checks s).

(** The four conditionals, each a transformer of the two locals, in the
    order in which the tool body runs them. *)

Definition rule_conflicts (s : Snapshot) (a : Acc) : Acc :=
  if hasConflicts s
  then {| status := not_ready; issues := Js.push (issues a) conflicts_msg |}
  else a.

Definition rule_approvals (s : Snapshot) (a : Acc) : Acc :=
  if Nat.ltb (approvals s) (requiredApprovals s)
  then {| status := soften (status a);
          issues := Js.push (issues a)
                      (approvals_msg (requiredApprovals s - approvals s)) |}
  else a.

Definition rule_checks (s : Snapshot) (a : Acc) : Acc :=
  if Nat.ltb 0 (length (failingChecks s))
  then {| status := soften (status a);
          issues := Js.push (issues a)
                      (checks_msg (length (failingChecks s))) |}
  else a.

Definition rule_draft (s : Snapshot) (a : Acc) : Acc :=
  if draft (prData s)
  then {| status := not_ready; issues := Js.push (issues a) draft_msg |}
  else a.

Definition after_conflicts (s : Snapshot) : Acc := rule_conflicts s acc_init.
Definition after_approvals (s : Snapshot) : Acc :=
  rule_approvals s (after_conflicts s).
Definition after_checks (s : Snapshot) : Acc :=
  rule_checks s (after_approvals s).

(** The values of [status] and [issues] when the tool builds its reply. *)
Definition classify (s : Snapshot) : Acc := rule_draft s (after_checks s).

End Readiness.

(** The reply of the tool is the JSON object the widget receives as props.
    [JSON.stringify] drops a field whose value is [undefined]. *)
Record Props := {
  p_status : Status;
  p_approvals : nat;
  p_requiredApprovals : nat;
  p_checks : option (list Check);
  p_draft : option bool;
  p_mergeable : option bool;
  p_issues : option (list string)
}.

(** [xs.length > 0 ? xs : undefined] *)
Definition nonempty_or_undefined {A : Type} (xs : list A) : option (list A) :=
  if Nat.ltb 0 (length xs) then Some xs else None.

(** The fields of the reply of server "github-pr-readiness" that the
    widget's classification display reads. *)
Definition reply (s : Snapshot) : Props :=
  {| p_status := status (Readiness.classify s);
     p_approvals := Readiness.approvals s;
     p_requiredApprovals := Readiness.requiredApprovals s;
     p_checks := nonempty_or_undefined (Readiness.checks s);
     p_draft := Some (draft (prData s) || false);
     p_mergeable := mergeable (prData s);
     p_issues := nonempty_or_undefined (issues (Readiness.classify s)) |}.

(** ** Server "my-mcp-server" (the revision with a completed-check ratio) *)

Module Legacy.

Definition approvals (s : Snapshot) : nat := count_approvals (reviews s).

(** [prData.requested_reviewers?.length || 0] *)
Definition requestedReviewers (s : Snapshot) : nat :=
  Js.opt_length_or (requested_reviewers (prData s)) 0.

Definition checkRuns (s : Snapshot) : list CheckRun :=
  Js.or_empty (check_runs s).

Definition is_completed (c : CheckRun) : bool :=
  String.eqb (cr_status c) "completed".

(** [checkRuns.filter((c) => c.status === "completed" &&
    c.conclusion === "success").length] *)
Definition passingChecks (s : Snapshot) : nat :=
  length (filter (fun c => is_completed c &&
                           Js.opt_str_eq (cr_conclusion c) "success")
                 (checkRuns s)).

(** [checkRuns.filter((c) => c.status === "completed").length] *)
Definition totalChecks (s : Snapshot) : nat :=
  length (filter is_completed (checkRuns s)).

Definition hasConflicts (s : Snapshot) : bool := has_conflicts (prData s).

Definition rule_conflicts (s : Snapshot) (a : Acc) : Acc :=
  if hasConflicts s
  then {| status := not_ready; issues := Js.push (issues a) conflicts_msg |}
  else a.

Definition rule_approvals (s : Snapshot) (a : Acc) : Acc :=
  if Nat.ltb (approvals s) (Nat.max 1 (requestedReviewers s))
  then {| status := soften (status a);
          issues := Js.push (issues a)
                      (approvals_msg
                         (Nat.max 1 (requestedReviewers s) - approvals s)) |}
  else a.

Definition rule_checks (s : Snapshot) (a : Acc) : Acc :=
  if Nat.ltb 0 (totalChecks s) && Nat.ltb (passingChecks s) (totalChecks s)
  then {| status := soften (status a);
          issues := Js.push (issues a)
                      (checks_msg (totalChecks s - passingChecks s)) |}
  else a.

Definition rule_draft (s : Snapshot) (a : Acc) : Acc :=
  if draft (prData s)
  then {| status := not_ready; issues := Js.push (issues a) draft_msg |}
  else a.

Definition classify (s : Snapshot) : Acc :=
  rule_draft s (rule_checks s (rule_approvals s (rule_conflicts s acc_init))).

End Legacy.

(** ** The dashboard widget: next actions *)

Module Widget.

(** Destructuring defaults: [checks = []], [draft = false]. *)
Definition checks (p : Props) : list Check := Js.or_empty (p_checks p).

Definition draft (p : Props) : bool :=
  match p_draft p with
  | Some b => b
  | None => false
  end.

Definition is_failing (c : Check) : bool :=
  match state c with
  | st_failure | st_error => true
  | _ => false
  end.

Definition is_pending (c : Check) : bool :=
  match state c with
  | st_pending => true
  | _ => false
  end.

Definition failingChecks (p : Props) : list Check :=
  filter is_failing (checks p).

Definition pendingChecks (p : Props) : list Check :=
  filter is_pending (checks p).

(** [mergeable === false] *)
Definition conflicting (p : Props) : bool :=
  match p_mergeable p with
  | Some false => true
  | _ => false
  end.

(** [n > 1 ? "s" : ""] *)
Definition plural (n : nat) : string :=
  if Nat.ltb 1 n then "s" else "".

Definition draft_action : string := "Mark the PR as ready for review".

Definition fix_action (n : nat) : string :=
  "Fix " ++ Js.num_to_string n ++ " failing check" ++ plural n.

Definition request_action (n : nat) : string :=
  "Request " ++ Js.num_to_string n ++ " more approval" ++ plural n.

Definition wait_action (n : nat) : string :=
  "Wait for " ++ Js.num_to_string n ++ " pending check" ++ plural n.

(** [getNextActions]: five guarded pushes on a local array, then
    [actions.slice(0, 3)]. *)
Definition getNextActions (p : Props) : list string :=
  let actions : list string := [] in
  let actions :=
    if conflicting p then Js.push actions conflicts_msg else actions in
  let actions :=
    if draft p then Js.push actions draft_action else actions in
  let actions :=
    if Nat.ltb 0 (length (failingChecks p))
    then Js.push actions (fix_action (length (failingChecks p)))
    else actions in
  let actions :=
    if Nat.ltb (p_approvals p) (p_requiredApprovals p)
    then Js.push actions
           (request_action (p_requiredApprovals p - p_approvals p))
    else actions in
  let actions :=
    if Nat.ltb 0 (length (pendingChecks p))
    then Js.push actions (wait_action (length (pendingChecks p)))
    else actions in
  Js.slice0 3 actions.

End Widget.

(** ** The next actions as the specification words them *)

(** Written from the specification and the texts the widget shows, on the
    props alone: none of the widget's guards, filters or message builders
    is used here. *)
Module ActionSpec.

(** Decimal text of a count. *)
Definition decimal (n : nat) : string :=
  NilEmpty.string_of_uint (Nat.to_uint n).

(** Pluralized by count: no ending for one, "s" above one. *)
Definition ending (n : nat) : string :=
  if Nat.leb n 1 then "" else "s".

Definition same_state (a b : CheckState) : bool :=
  match a, b with
  | st_success, st_success => true
  | st_failure, st_failure => true
  | st_pending, st_pending => true
  | st_error, st_error => true
  | _, _ => false
  end.

(** Number of checks whose state is one of [states]. *)
Fixpoint count_in (states : list CheckState) (l : list Check) : nat :=
  match l with
  | [] => 0
  | c :: l' =>
      (if existsb (same_state (state c)) states then 1 else 0)
      + count_in states l'
  end.

(** The checks of the props, none when the field is absent. *)
Definition given_checks (p : Props) : list Check :=
  match p_checks p with
  | Some l => l
  | None => []
  end.

(** Failing checks: normalized state failure or error. *)
Definition failing (p : Props) : nat :=
  count_in [st_failure; st_error] (given_checks p).

(** Pending checks: not yet completed, not failing. *)
Definition waiting (p : Props) : nat :=
  count_in [st_pending] (given_checks p).

(** Approvals still missing; none when the required count is reached. *)
Definition missing (p : Props) : nat :=
  p_requiredApprovals p - p_approvals p.

(** The five actions in priority order, [None] where one does not apply:
    conflicts, draft (phrased as an action), failing checks, missing
    approvals, pending checks. *)
Definition priorities (p : Props) : list (option string) :=
  [ match p_mergeable p with
    | Some false =>
        Some "Resolve the existing merge conflicts before merging"
    | _ => None
    end;
    match p_draft p with
    | Some true => Some "Mark the PR as ready for review"
    | _ => None
    end;
    match failing p with
    | 0 => None
    | S _ as n => Some ("Fix " ++ decimal n ++ " failing check" ++ ending n)
    end;
    match missing p with
    | 0 => None
    | S _ as n =>
        Some ("Request " ++ decimal n ++ " more approval" ++ ending n)
    end;
    match waiting p with
    | 0 => None
    | S _ as n =>
        Some ("Wait for " ++ decimal n ++ " pending check" ++ ending n)
    end ].

Definition applicable (p : Props) : list string :=
  flat_map (fun o => match o with Some a => [a] | None => [] end)
           (priorities p).

(** Only the first three applicable actions are surfaced. *)
Definition expected (p : Props) : list string :=
  firstn 3 (applicable p).

End ActionSpec.

(** The next actions the system shows for a snapshot. *)
Definition nextActions (s : Snapshot) : list string :=
  Widget.getNextActions (reply s).

(** ** Concrete snapshots *)

Definition run (st : string) (c : option string) : CheckRun :=
  {| cr_name := Some "ci"; cr_status := st; cr_conclusion := c |}.

Definition approved : Review := {| review_state := "APPROVED" |}.

Definition snap (rq : option (list Reviewer)) (m : option bool) (d : bool)
    (rs : list Review) (cs : option (list CheckRun)) : Snapshot :=
  {| prData := {| requested_reviewers := rq; mergeable := m; draft := d |};
     reviews := rs; check_runs := cs |}.

(** Scenario C: mergeable, not a draft, no approval against one required,
    one failed run and one run still in progress. *)
Definition scenario_C : Snapshot :=
  snap (Some []) (Some true) false []
       (Some [run "completed" (Some "failure"); run "in_progress" None]).

(** A draft pull request without any approval. *)
Definition draft_unapproved : Snapshot :=
  snap (Some []) (Some true) true [] (Some []).

(** Conflicting, yet fully approved with every check succeeding. *)
Definition conflicting_approved : Snapshot :=
  snap (Some []) (Some false) false [approved; approved]
       (Some [run "completed" (Some "success")]).

(** Mergeability still unknown, approved, one run still in progress. *)
Definition unknown_mergeable_ok : Snapshot :=
  snap None None false [approved] (Some [run "queued" None]).

(** An approved snapshot whose runs have all completed, one of them failed. *)
Definition completed_mixed : Snapshot :=
  snap (Some [ {| login := "octocat" |} ]) (Some true) false [approved]
       (Some [run "completed" (Some "success");
              run "completed" (Some "failure")]).

(** Conflicting, draft, unapproved, with one cancelled and one queued run:
    all five next actions apply. *)
Definition everything_wrong : Snapshot :=
  snap None (Some false) true []
       (Some [run "completed" (Some "cancelled"); run "queued" None]).

(** ** Issue order *)

Definition issue_if (b : bool) (msg : string) : list string :=
  if b then [msg] else [].

Module Order.

Definition conflicts_issue (s : Snapshot) : list string :=
  issue_if (Readiness.hasConflicts s) conflicts_msg.

Definition draft_issue (s : Snapshot) : list string :=
  issue_if (draft (prData s)) draft_msg.

Definition approvals_issue (s : Snapshot) : list string :=
  issue_if (Nat.ltb (Readiness.approvals s) (Readiness.requiredApprovals s))
    (approvals_msg (Readiness.requiredApprovals s - Readiness.approvals s)).

Definition checks_issue (s : Snapshot) : list string :=
  issue_if (negb (Nat.eqb (length (Readiness.failingChecks s)) 0))
    (checks_msg (length (Readiness.failingChecks s))).

(** The rule sequence as the specification lists it: conflicts, draft,
    approvals, checks. *)
Definition spec_order (s : Snapshot) : list string :=
  (conflicts_issue s ++ draft_issue s ++ approvals_issue s
     ++ checks_issue s)%list.

(** The sequence of the conditionals in the tool body: conflicts,
    approvals, checks, draft. *)
Definition code_order (s : Snapshot) : list string :=
  (conflicts_issue s ++ approvals_issue s ++ checks_issue s
     ++ draft_issue s)%list.

End Order.

(** The downgrade as the specification words it for the approvals and the
    checks rule: not-ready stays, anything else becomes pending. *)
Definition spec_downgrade (s : Status) : Status :=
  match s with
  | not_ready => not_ready
  | _ => pending
  end.

(** ** Invariant of the two locals *)

(** A pair of locals is coherent when no issue has been pushed exactly as
    long as the status is still the initial one. *)
Definition coherent (a : Acc) : Prop :=
  issues a = [] <-> status a = ready.

(** Every conditional either leaves the locals alone or pushes one issue
    and moves the status away from [ready]. *)
Inductive rule_step (a : Acc) : Acc -> Prop :=
| step_skip : rule_step a a
| step_fire (st : Status) (msg : string) :
    st <> ready ->
    (status a = not_ready -> st = not_ready) ->
    rule_step a {| status := st; issues := Js.push (issues a) msg |}.

(** The check runs the two revisions are compared on: completed, with
    conclusion success or failure. *)
Definition completed_success_or_failure (c : CheckRun) : Prop :=
  cr_status c = "completed" /\
  (cr_conclusion c = Some "success" \/ cr_conclusion c = Some "failure").

Create HintDb readiness.

(** ** Status order and closed form of the verdict *)

(** Position of a status in the order ready, pending, not-ready. *)
Definition rank (s : Status) : nat :=
  match s with
  | ready => 0
  | pending => 1
  | not_ready => 2
  end.

(** The status as a function of which of the four conditions hold: a hard
    blocker (conflicts, draft) or both soft blockers (approvals, checks)
    give not-ready, one soft blocker gives pending. *)
Definition verdict_of (conflicts drafted lacking failing : bool) : Status :=
  if conflicts || drafted || (lacking && failing) then not_ready
  else if lacking || failing then pending
  else ready.

(** ** The fetches behind a snapshot (server "github-pr-readiness") *)

(** What the tool reads of a [fetch] response: [ok] and the parsed body. *)
Record Response (A : Type) := { ok : bool; json : A }.
Arguments ok {A} _.
Arguments json {A} _.

Record File := { filename : string }.

(** The pull request itself is read without a test of [ok]; the reviews,
    the check runs and the files fall back to an empty value when their
    response is not [ok].  [f_changed_files] is [prData.changed_files]. *)
Record Fetched := {
  f_prData : PrData;
  f_changed_files : option nat;
  reviewsResponse : Response (list Review);
  checksResponse : Response (option (list CheckRun));
  filesResponse : Response (list File)
}.

(** [reviewsResponse.ok ? await reviewsResponse.json() : []] *)
Definition fetched_reviews (f : Fetched) : list Review :=
  if ok (reviewsResponse f) then json (reviewsResponse f) else [].

(** The [check_runs] field of
    [checksResponse.ok ? await checksResponse.json() : { check_runs: [] }] *)
Definition fetched_check_runs (f : Fetched) : option (list CheckRun) :=
  if ok (checksResponse f) then json (checksResponse f) else Some [].

(** [filesResponse.ok ? await filesResponse.json() : []] *)
Definition filesData (f : Fetched) : list File :=
  if ok (filesResponse f) then json (filesResponse f) else [].

Definition fetched_snapshot (f : Fetched) : Snapshot :=
  {| prData := f_prData f;
     reviews := fetched_reviews f;
     check_runs := fetched_check_runs f |}.

(** [prData.changed_files || 0] *)
Definition changedFilesCount (f : Fetched) : nat :=
  match f_changed_files f with
  | Some n => Js.or_num n 0
  | None => 0
  end.

(** [filesData.slice(0, 5).map((f) => f.filename)] *)
Definition topFiles (f : Fetched) : list string :=
  map filename (Js.slice0 5 (filesData f)).

(** The file fields of the reply: [changedFilesCount] and
    [topFiles: topFiles.length > 0 ? topFiles : undefined]. *)
Record FileProps := {
  p_changedFilesCount : nat;
  p_topFiles : option (list string)
}.

Definition files_reply (f : Fetched) : FileProps :=
  {| p_changedFilesCount := changedFilesCount f;
     p_topFiles := nonempty_or_undefined (topFiles f) |}.

(** ** The dashboard widget: what it displays *)

Module Dashboard.

Definition is_passing (c : Check) : bool :=
  match state c with
  | st_success => true
  | _ => false
  end.

(** [checks.filter((c) => c.state === "success")] *)
Definition passingChecks (p : Props) : list Check :=
  filter is_passing (Widget.checks p).

(** The [label] of [getStatusConfig()]. *)
Definition status_label (st : Status) : string :=
  match st with
  | ready => "READY"
  | pending => "PENDING"
  | not_ready => "BLOCKED"
  end.

(** Colour of the approvals bar:
    [approvals >= requiredApprovals ? "#10b981" : "#f59e0b"] *)
Definition approvals_bar_color (p : Props) : string :=
  if Nat.leb (p_requiredApprovals p) (p_approvals p)
  then "#10b981" else "#f59e0b".

(** Colour of the checks bar: [failingChecks.length > 0 ? "#ef4444" :
    pendingChecks.length > 0 ? "#f59e0b" : "#10b981"] *)
Definition checks_bar_color (p : Props) : string :=
  if Nat.ltb 0 (length (Widget.failingChecks p)) then "#ef4444"
  else if Nat.ltb 0 (length (Widget.pendingChecks p)) then "#f59e0b"
  else "#10b981".

(** [mergeable === true ? "Mergeable" : mergeable === false ? "Conflicts"
    : "Unknown"] *)
Definition mergeable_label (p : Props) : string :=
  match p_mergeable p with
  | Some true => "Mergeable"
  | Some false => "Conflicts"
  | None => "Unknown"
  end.

(** [(failingChecks.length > 0 || pendingChecks.length > 0) && ...]:
    whether the "Check Details" block is rendered. *)
Definition check_details_shown (p : Props) : bool :=
  Nat.ltb 0 (length (Widget.failingChecks p))
  || Nat.ltb 0 (length (Widget.pendingChecks p)).

(** The number in "Check Details (n)":
    [failingChecks.length + pendingChecks.length] *)
Definition check_details_count (p : Props) : nat :=
  length (Widget.failingChecks p) + length (Widget.pendingChecks p).

(** [[...failingChecks, ...pendingChecks]] *)
Definition check_details (p : Props) : list Check :=
  (Widget.failingChecks p ++ Widget.pendingChecks p)%list.

(** Destructuring default [topFiles = []]. *)
Definition shown_files (fp : FileProps) : list string :=
  Js.or_empty (p_topFiles fp).

(** [topFiles.length > 0 && ...]: whether the "Files Changed" block is
    rendered. *)
Definition files_shown (fp : FileProps) : bool :=
  Nat.ltb 0 (length (shown_files fp)).

(** The count of the line "... and N more" of the expanded "Files
    Changed" block: the block needs [topFiles.length > 0], the line
    [changedFilesCount > topFiles.length]. *)
Definition more_files (fp : FileProps) : option nat :=
  if files_shown fp
  then if Nat.ltb (length (shown_files fp)) (p_changedFilesCount fp)
       then Some (p_changedFilesCount fp - length (shown_files fp))
       else None
  else None.

(** What [formatDate] returns: "just now", [`${diffHours}h ago`],
    [`${diffDays}d ago`], or the platform's [toLocaleDateString]. *)
Inductive DateText :=
| just_now
| hours_ago (diffHours : Z)
| days_ago (diffDays : Z)
| locale_date.

(** [formatDate], with the clock as an input: [now] and [date] are the
    values of [getTime()] in milliseconds, [date] being [None] when the
    string does not parse ([NaN], for which every comparison is false).
    [Math.floor] of the quotient of two integers is the floor division. *)
Definition formatDate (now : Z) (date : option Z) : DateText :=
  match date with
  | None => locale_date
  | Some d =>
      let diffMs := Z.sub now d in
      let diffHours := Z.div diffMs (1000 * 60 * 60)%Z in
      let diffDays := Z.div diffHours 24%Z in
      if Z.ltb diffHours 1 then just_now
      else if Z.ltb diffHours 24 then hours_ago diffHours
      else if Z.ltb diffDays 7 then days_ago diffDays
      else locale_date
  end.

End Dashboard.

(** ** The reply and the widget of server "my-mcp-server" *)

(** The props of the first widget; every field but [status] is optional. *)
Record LegacyProps := {
  lp_status : Status;
  lp_approvals : option nat;
  lp_requestedReviewers : option nat;
  lp_checkStatus : option (nat * nat);
  lp_draft : option bool;
  lp_hasConflicts : option bool;
  lp_issues : option (list string)
}.

(** The reply of the first revision of the tool; [checkStatus] is the pair
    [{ passing, total }]. *)
Definition legacy_reply (s : Snapshot) : LegacyProps :=
  {| lp_status := status (Legacy.classify s);
     lp_approvals := Some (Legacy.approvals s);
     lp_requestedReviewers := Some (Legacy.requestedReviewers s);
     lp_checkStatus := Some (Legacy.passingChecks s, Legacy.totalChecks s);
     lp_draft := Some (draft (prData s));
     lp_hasConflicts := Some (Legacy.hasConflicts s);
     lp_issues := Some (issues (Legacy.classify s)) |}.

Module LegacyWidget.

Definition default {A : Type} (x : option A) (d : A) : A :=
  match x with
  | Some v => v
  | None => d
  end.

(** Destructuring defaults: [requestedReviewers = 0], [draft = false],
    [hasConflicts = false], [issues = []]. *)
Definition requestedReviewers (p : LegacyProps) : nat :=
  default (lp_requestedReviewers p) 0.
Definition draft (p : LegacyProps) : bool := default (lp_draft p) false.
Definition hasConflicts (p : LegacyProps) : bool :=
  default (lp_hasConflicts p) false.
Definition issues (p : LegacyProps) : list string :=
  default (lp_issues p) [].

(** The denominator of [{approvals}/{requestedReviewers || 1}]. *)
Definition approvals_denominator (p : LegacyProps) : nat :=
  Js.or_num (requestedReviewers p) 1.

(** [status === "ready" ? "Ready to merge" : status === "pending" ?
    "Pending review" : "Not ready"] *)
Definition status_text (p : LegacyProps) : string :=
  match lp_status p with
  | ready => "Ready to merge"
  | pending => "Pending review"
  | not_ready => "Not ready"
  end.

(** [(draft || hasConflicts || issues.length > 0) && ...]: whether the
    line under the status text is rendered. *)
Definition subtitle_shown (p : LegacyProps) : bool :=
  draft p || hasConflicts p || Nat.ltb 0 (length (issues p)).

(** The three children of that line, in order; a child whose guard is
    false renders nothing. *)
Definition subtitle_parts (p : LegacyProps) : list string :=
  ((if draft p then ["Draft • "] else [])
   ++ (if hasConflicts p then ["Conflicts • "] else [])
   ++ (if Nat.ltb 0 (length (issues p))
       then [(Js.num_to_string (length (issues p)) ++ " issue(s)")%string]
       else []))%list.

End LegacyWidget.

(** ** Further concrete inputs *)

(** Approved, with one run that completed as neutral and one that failed. *)
Definition neutral_and_failed : Snapshot :=
  snap None None false [approved]
       (Some [run "completed" (Some "neutral");
              run "completed" (Some "failure")]).

(** A snapshot with one more review at the end of the review list. *)
Definition with_review (r : Review) (s : Snapshot) : Snapshot :=
  {| prData := prData s;
     reviews := (reviews s ++ [r])%list;
     check_runs := check_runs s |}.

(** The reviews request failed although two approvals exist. *)
Definition reviews_failed : Fetched :=
  {| f_prData := prData unknown_mergeable_ok;
     f_changed_files := Some 3;
     reviewsResponse := {| ok := false; json := [approved; approved] |};
     checksResponse := {| ok := true; json := Some [] |};
     filesResponse := {| ok := true; json := [] |} |}.

(** The check-runs request failed although a run has failed. *)
Definition checks_failed : Fetched :=
  {| f_prData := prData scenario_C;
     f_changed_files := None;
     reviewsResponse := {| ok := true; json := [approved] |};
     checksResponse :=
       {| ok := false; json := Some [run "completed" (Some "failure")] |};
     filesResponse := {| ok := false; json := [] |} |}.

(** Seven changed files, all fetched. *)
Definition seven_files : Fetched :=
  {| f_prData := prData scenario_C;
     f_changed_files := Some 7;
     reviewsResponse := {| ok := true; json := [] |};
     checksResponse := {| ok := true; json := None |};
     filesResponse :=
       {| ok := true;
          json := map (fun n => {| filename := n |})
                      ["a"; "b"; "c"; "d"; "e"; "f"; "g"] |} |}.

(** * Properties *)

(** ** Facts about the two locals *)

Lemma In_push {A : Type} (x y : A) (l : list A) :
  In x (Js.push l y) <-> In x l \/ x = y.
Proof.
  unfold Js.push. rewrite in_app_iff. simpl.
  split; intros [H | H]; auto.
  - destruct H as [H | []]; auto.
Qed.

Lemma push_not_nil {A : Type} (l : list A) (x : A) : Js.push l x <> [].
Proof.
  unfold Js.push. destruct l; discriminate.
Qed.

Lemma soften_not_ready (st : Status) : soften st <> ready.
Proof. destruct st; discriminate. Qed.

Lemma soften_blocked : soften not_ready = not_ready.
Proof. reflexivity. Qed.

Lemma coherent_init : coherent acc_init.
Proof. unfold coherent; simpl; tauto. Qed.

Lemma coherent_blocked (l : list string) (x : string) (st : Status) :
  st <> ready -> coherent {| status := st; issues := Js.push l x |}.
Proof.
  intros Hst. unfold coherent; simpl. split; intros H.
  - now apply push_not_nil in H.
  - contradiction.
Qed.

#[local] Hint Resolve coherent_init soften_not_ready : readiness.

Ltac unfold_rules :=
  unfold Readiness.rule_conflicts, Readiness.rule_approvals,
    Readiness.rule_checks, Readiness.rule_draft,
    Legacy.rule_conflicts, Legacy.rule_approvals,
    Legacy.rule_checks, Legacy.rule_draft.

Lemma rule_step_coherent (a b : Acc) :
  rule_step a b -> coherent a -> coherent b.
Proof.
  intros [ | st msg Hst _] Ha; [exact Ha | now apply coherent_blocked].
Qed.

Lemma rule_step_keeps_issue (a b : Acc) (x : string) :
  rule_step a b -> In x (issues a) -> In x (issues b).
Proof.
  intros [ | st msg _ _] Hx; [exact Hx | ].
  simpl. apply In_push. now left.
Qed.

Lemma rule_step_keeps_blocked (a b : Acc) :
  rule_step a b -> status a = not_ready -> status b = not_ready.
Proof.
  intros [ | st msg _ Hkeep] Ha; [exact Ha | simpl; auto].
Qed.

Ltac fire_or_skip :=
  unfold_rules;
  match goal with
  | |- rule_step _ (if ?c then _ else _) =>
      destruct c; [ apply step_fire | apply step_skip ]
  end;
  try discriminate; try reflexivity; auto with readiness;
  try (intros ->; reflexivity).

Lemma readiness_conflicts_step (s : Snapshot) (a : Acc) :
  rule_step a (Readiness.rule_conflicts s a).
Proof. fire_or_skip. Qed.

Lemma readiness_approvals_step (s : Snapshot) (a : Acc) :
  rule_step a (Readiness.rule_approvals s a).
Proof. fire_or_skip. Qed.

Lemma readiness_checks_step (s : Snapshot) (a : Acc) :
  rule_step a (Readiness.rule_checks s a).
Proof. fire_or_skip. Qed.

Lemma readiness_draft_step (s : Snapshot) (a : Acc) :
  rule_step a (Readiness.rule_draft s a).
Proof. fire_or_skip. Qed.

Lemma legacy_conflicts_step (s : Snapshot) (a : Acc) :
  rule_step a (Legacy.rule_conflicts s a).
Proof. fire_or_skip. Qed.

Lemma legacy_approvals_step (s : Snapshot) (a : Acc) :
  rule_step a (Legacy.rule_approvals s a).
Proof. fire_or_skip. Qed.

Lemma legacy_checks_step (s : Snapshot) (a : Acc) :
  rule_step a (Legacy.rule_checks s a).
Proof. fire_or_skip. Qed.

Lemma legacy_draft_step (s : Snapshot) (a : Acc) :
  rule_step a (Legacy.rule_draft s a).
Proof. fire_or_skip. Qed.

#[local] Hint Resolve readiness_conflicts_step readiness_approvals_step
  readiness_checks_step readiness_draft_step
  legacy_conflicts_step legacy_approvals_step
  legacy_checks_step legacy_draft_step : readiness.

(** Once the status is [not_ready] and an issue is in the array, the
    remaining conditionals of either tool body keep both. *)
Lemma blocked_stays (a b : Acc) (x : string) :
  rule_step a b ->
  status a = not_ready /\ In x (issues a) ->
  status b = not_ready /\ In x (issues b).
Proof.
  intros Hstep [Hst Hin]. split.
  - eapply rule_step_keeps_blocked; eauto.
  - eapply rule_step_keeps_issue; eauto.
Qed.

Lemma has_conflicts_false (p : PrData) :
  mergeable p = Some false -> has_conflicts p = true.
Proof. unfold has_conflicts. now intros ->. Qed.

Lemma has_conflicts_other (p : PrData) :
  mergeable p <> Some false -> has_conflicts p = false.
Proof.
  unfold has_conflicts. destruct (mergeable p) as [[|]|]; congruence.
Qed.

(** ** Conflicts *)

(** C1: whenever [mergeable] is [false] the final status is not-ready and
    the issues contain the merge-conflict message, whatever the reviews,
    the requested reviewers, the check runs and the draft flag are; this
    holds for the tool body of both servers. *)
Theorem conflicts_always_block (s : Snapshot) :
  mergeable (prData s) = Some false ->
  (status (Readiness.classify s) = not_ready /\
   In conflicts_msg (issues (Readiness.classify s))) /\
  (status (Legacy.classify s) = not_ready /\
   In conflicts_msg (issues (Legacy.classify s))).
Proof.
  intros Hm. apply has_conflicts_false in Hm.
  split.
  - unfold Readiness.classify, Readiness.after_checks,
      Readiness.after_approvals, Readiness.after_conflicts.
    do 3 (eapply blocked_stays; [solve [auto with readiness] | ]).
    unfold Readiness.rule_conflicts, Readiness.hasConflicts. rewrite Hm.
    cbn [status issues]. split; [reflexivity | apply In_push; now right].
  - unfold Legacy.classify.
    do 3 (eapply blocked_stays; [solve [auto with readiness] | ]).
    unfold Legacy.rule_conflicts, Legacy.hasConflicts. rewrite Hm.
    cbn [status issues]. split; [reflexivity | apply In_push; now right].
Qed.

Lemma conflicts_always_block_witness :
  (status (Readiness.classify conflicting_approved) = not_ready /\
   In conflicts_msg (issues (Readiness.classify conflicting_approved))) /\
  (status (Legacy.classify conflicting_approved) = not_ready /\
   In conflicts_msg (issues (Legacy.classify conflicting_approved))).
Proof.
  apply (conflicts_always_block conflicting_approved). reflexivity.
Defined.

(** ** Draft *)

(** C5: whenever the draft flag is set the final status is not-ready and
    the issues contain "PR is still in draft", whatever the mergeable
    state, the approvals and the check results are; this holds for the
    tool body of both servers. *)
Theorem draft_always_blocks (s : Snapshot) :
  draft (prData s) = true ->
  (status (Readiness.classify s) = not_ready /\
   In draft_msg (issues (Readiness.classify s))) /\
  (status (Legacy.classify s) = not_ready /\
   In draft_msg (issues (Legacy.classify s))).
Proof.
  intros Hd.
  unfold Readiness.classify, Legacy.classify,
    Readiness.rule_draft, Legacy.rule_draft.
  rewrite Hd. cbn [status issues].
  repeat split; apply In_push; now right.
Qed.

Lemma draft_always_blocks_witness :
  (status (Readiness.classify draft_unapproved) = not_ready /\
   In draft_msg (issues (Readiness.classify draft_unapproved))) /\
  (status (Legacy.classify draft_unapproved) = not_ready /\
   In draft_msg (issues (Legacy.classify draft_unapproved))).
Proof.
  apply (draft_always_blocks draft_unapproved). reflexivity.
Defined.

(** ** Issues and status move together *)

Lemma readiness_coherent (s : Snapshot) : coherent (Readiness.classify s).
Proof.
  unfold Readiness.classify, Readiness.after_checks,
    Readiness.after_approvals, Readiness.after_conflicts.
  do 4 (eapply rule_step_coherent; [solve [auto with readiness] | ]).
  apply coherent_init.
Qed.

Lemma legacy_coherent (s : Snapshot) : coherent (Legacy.classify s).
Proof.
  unfold Legacy.classify.
  do 4 (eapply rule_step_coherent; [solve [auto with readiness] | ]).
  apply coherent_init.
Qed.

(** C9: for every snapshot the issues array is empty exactly when the
    final status is ready, in the tool body of both servers: a conditional
    that fires pushes an issue and moves the status away from ready, and a
    conditional that does not fire changes neither. *)
Theorem issues_empty_iff_ready (s : Snapshot) :
  (issues (Readiness.classify s) = [] <->
   status (Readiness.classify s) = ready) /\
  (issues (Legacy.classify s) = [] <->
   status (Legacy.classify s) = ready).
Proof.
  split; [apply readiness_coherent | apply legacy_coherent].
Qed.

(** ** Ready *)

Lemma no_failing_filter (l : list Check) :
  (forall c, In c l -> state c <> st_failure /\ state c <> st_error) ->
  filter Readiness.is_failing l = [].
Proof.
  induction l as [ | c l IH]; intros Hall; [reflexivity | ].
  simpl. destruct (Hall c (or_introl eq_refl)) as [Hf He].
  unfold Readiness.is_failing at 1.
  destruct (state c); try congruence; apply IH; intros; apply Hall; now right.
Qed.

(** C7: when [mergeable] is not [false] (so [true] or unknown), the draft
    flag is off, the approvals reach the required count and no check has
    normalized state failure or error, the final status is ready; checks
    that are only pending are no obstacle. *)
Theorem ready_when_nothing_blocks (s : Snapshot) :
  mergeable (prData s) <> Some false ->
  draft (prData s) = false ->
  Readiness.requiredApprovals s <= Readiness.approvals s ->
  (forall c, In c (Readiness.checks s) ->
             state c <> st_failure /\ state c <> st_error) ->
  status (Readiness.classify s) = ready.
Proof.
  intros Hm Hd Ha Hc.
  unfold Readiness.classify, Readiness.after_checks,
    Readiness.after_approvals, Readiness.after_conflicts.
  unfold Readiness.rule_draft. rewrite Hd.
  unfold Readiness.rule_checks, Readiness.failingChecks.
  rewrite (no_failing_filter _ Hc). cbn [length Nat.ltb Nat.leb].
  unfold Readiness.rule_approvals.
  replace (Nat.ltb (Readiness.approvals s) (Readiness.requiredApprovals s))
    with false by (symmetry; apply Nat.ltb_ge; exact Ha).
  unfold Readiness.rule_conflicts, Readiness.hasConflicts.
  rewrite (has_conflicts_other _ Hm). reflexivity.
Qed.

Lemma ready_when_nothing_blocks_witness :
  status (Readiness.classify unknown_mergeable_ok) = ready.
Proof.
  apply (ready_when_nothing_blocks unknown_mergeable_ok).
  - discriminate.
  - reflexivity.
  - vm_compute. lia.
  - intros c Hc. vm_compute in Hc. destruct Hc as [<- | []].
    split; discriminate.
Defined.

(** ** Required approvals *)

Lemma requiredApprovals_max (s : Snapshot) :
  Readiness.requiredApprovals s =
  Nat.max 1 (length (Readiness.requestedReviewersList s)).
Proof.
  unfold Readiness.requiredApprovals, Readiness.requestedReviewersList,
    Js.opt_length_or, Js.or_empty, Js.or_num.
  rewrite length_map.
  destruct (requested_reviewers (prData s)) as [l | ]; [ | reflexivity].
  destruct (length l); reflexivity.
Qed.

(** C8: the required-approvals count is the maximum of 1 and the number
    of requested reviewers; so with no requested reviewer and no approval
    one approval is required, the status is not ready and the issue
    "Needs 1 more approval(s)" is reported. *)
Theorem required_approvals_floor (s : Snapshot) :
  Readiness.requiredApprovals s =
    Nat.max 1 (length (Readiness.requestedReviewersList s)) /\
  (length (Readiness.requestedReviewersList s) = 0 ->
   Readiness.approvals s = 0 ->
   Readiness.requiredApprovals s = 1 /\
   status (Readiness.classify s) <> ready /\
   In "Needs 1 more approval(s)" (issues (Readiness.classify s))).
Proof.
  split; [apply requiredApprovals_max | ].
  intros Hn Ha.
  assert (Hr : Readiness.requiredApprovals s = 1)
    by (rewrite requiredApprovals_max, Hn; reflexivity).
  split; [exact Hr | ].
  assert (Hin : In "Needs 1 more approval(s)"
                   (issues (Readiness.after_approvals s))).
  { unfold Readiness.after_approvals, Readiness.rule_approvals.
    rewrite Hr, Ha. cbn [Nat.ltb Nat.leb issues Nat.sub].
    apply In_push. now right. }
  assert (Hfin : In "Needs 1 more approval(s)"
                    (issues (Readiness.classify s))).
  { unfold Readiness.classify, Readiness.after_checks.
    do 2 (eapply rule_step_keeps_issue; [solve [auto with readiness] | ]).
    exact Hin. }
  split; [ | exact Hfin].
  intros Hready. apply (readiness_coherent s) in Hready.
  rewrite Hready in Hfin. exact Hfin.
Qed.

Lemma required_approvals_floor_witness :
  Readiness.requiredApprovals draft_unapproved = 1 /\
  status (Readiness.classify draft_unapproved) <> ready /\
  In "Needs 1 more approval(s)" (issues (Readiness.classify draft_unapproved)).
Proof.
  destruct (required_approvals_floor draft_unapproved) as [_ H].
  exact (H eq_refl eq_refl).
Defined.

(** ** The checks rule *)

Lemma ltb_0_negb_eqb (n : nat) : Nat.ltb 0 n = negb (Nat.eqb n 0).
Proof. destruct n; reflexivity. Qed.

Lemma ltb_0_length {A : Type} (l : list A) :
  l <> [] -> Nat.ltb 0 (length l) = true.
Proof. destruct l; [congruence | reflexivity]. Qed.

(** C2, as the code has it: when some check is failing, the checks rule
    turns ready into pending and turns both pending and not-ready into
    not-ready, and it pushes "N check(s) failing" with N the number of
    failing checks; so a status that is pending after the approvals rule
    is not-ready after the checks rule. *)
Theorem checks_rule_effect (s : Snapshot) (a : Acc) :
  Readiness.failingChecks s <> [] ->
  status (Readiness.rule_checks s a) =
    match status a with
    | ready => pending
    | pending => not_ready
    | not_ready => not_ready
    end /\
  issues (Readiness.rule_checks s a) =
    (issues a ++ [checks_msg (length (Readiness.failingChecks s))])%list.
Proof.
  intros Hne. unfold Readiness.rule_checks.
  rewrite (ltb_0_length _ Hne). cbn [status issues].
  split; [destruct (status a); reflexivity | reflexivity].
Qed.

Lemma checks_rule_effect_witness :
  status (Readiness.after_checks scenario_C) = not_ready /\
  issues (Readiness.after_checks scenario_C) =
    ["Needs 1 more approval(s)"; "1 check(s) failing"].
Proof.
  apply (checks_rule_effect scenario_C (Readiness.after_approvals scenario_C)).
  vm_compute. discriminate.
Defined.

(** C2 as stated fails on Scenario C: a check is failing and the status is
    pending after the approvals rule, where the stated downgrade keeps
    pending, but the checks rule leaves not-ready. *)
Lemma checks_rule_pending_counterexample :
  length (Readiness.failingChecks scenario_C) = 1 /\
  status (Readiness.after_approvals scenario_C) = pending /\
  spec_downgrade (status (Readiness.after_approvals scenario_C)) = pending /\
  status (Readiness.rule_checks scenario_C
            (Readiness.after_approvals scenario_C)) = not_ready /\
  status (Readiness.rule_checks scenario_C
            (Readiness.after_approvals scenario_C)) <>
    spec_downgrade (status (Readiness.after_approvals scenario_C)).
Proof.
  repeat split; try reflexivity. vm_compute. discriminate.
Qed.

(** ** Issue order *)

(** C4, as the code has it: for every snapshot the issues are, in this
    order, the conflicts issue, the missing-approvals issue, the
    failing-checks issue and the draft issue, each present exactly when its
    rule fires; the draft issue comes last. *)
Theorem issues_in_code_order (s : Snapshot) :
  issues (Readiness.classify s) = Order.code_order s.
Proof.
  unfold Readiness.classify, Readiness.after_checks,
    Readiness.after_approvals, Readiness.after_conflicts, Order.code_order,
    Order.conflicts_issue, Order.approvals_issue, Order.checks_issue,
    Order.draft_issue, issue_if.
  unfold_rules. rewrite <- ltb_0_negb_eqb.
  destruct (Readiness.hasConflicts s),
    (Nat.ltb (Readiness.approvals s) (Readiness.requiredApprovals s)),
    (Nat.ltb 0 (length (Readiness.failingChecks s))),
    (draft (prData s)); reflexivity.
Qed.

(** C4 as stated fails on a draft pull request without approvals: the
    stated order puts "PR is still in draft" first, the tool reports it
    after "Needs 1 more approval(s)". *)
Lemma draft_issue_last_counterexample :
  issues (Readiness.classify draft_unapproved) =
    ["Needs 1 more approval(s)"; "PR is still in draft"] /\
  Order.spec_order draft_unapproved =
    ["PR is still in draft"; "Needs 1 more approval(s)"] /\
  issues (Readiness.classify draft_unapproved) <>
    Order.spec_order draft_unapproved.
Proof.
  repeat split; try reflexivity. vm_compute. discriminate.
Qed.

(** ** Next actions *)

Lemma nonempty_or_undefined_or_empty {A : Type} (l : list A) :
  Js.or_empty (nonempty_or_undefined l) = l.
Proof. destruct l; reflexivity. Qed.

(** The widget sees the checks the tool computed. *)
Lemma widget_checks_reply (s : Snapshot) :
  Widget.checks (reply s) = Readiness.checks s.
Proof.
  unfold Widget.checks, reply. cbn [p_checks].
  apply nonempty_or_undefined_or_empty.
Qed.

Lemma widget_draft_reply (s : Snapshot) :
  Widget.draft (reply s) = draft (prData s).
Proof.
  unfold Widget.draft, reply. cbn [p_draft]. apply orb_false_r.
Qed.

(** With five applicable actions only the first three are kept. *)
Example next_actions_truncated :
  ActionSpec.applicable (reply everything_wrong) =
    [conflicts_msg; "Mark the PR as ready for review"; "Fix 1 failing check";
     "Request 1 more approval"; "Wait for 1 pending check"] /\
  nextActions everything_wrong =
    [conflicts_msg; "Mark the PR as ready for review"; "Fix 1 failing check"].
Proof. split; reflexivity. Qed.

(** The plural "s" appears above one. *)
Example actions_pluralized :
  Widget.fix_action 2 = "Fix 2 failing checks" /\
  Widget.request_action 12 = "Request 12 more approvals" /\
  Widget.wait_action 1 = "Wait for 1 pending check".
Proof. repeat split; reflexivity. Qed.

Lemma count_in_failing (l : list Check) :
  ActionSpec.count_in [st_failure; st_error] l =
  length (filter Widget.is_failing l).
Proof.
  induction l as [ | c l IH]; [reflexivity | ].
  cbn [ActionSpec.count_in filter]. unfold Widget.is_failing at 1.
  rewrite IH. destruct (state c); reflexivity.
Qed.

Lemma count_in_pending (l : list Check) :
  ActionSpec.count_in [st_pending] l = length (filter Widget.is_pending l).
Proof.
  induction l as [ | c l IH]; [reflexivity | ].
  cbn [ActionSpec.count_in filter]. unfold Widget.is_pending at 1.
  rewrite IH. destruct (state c); reflexivity.
Qed.

(** C6: for every props object the next actions are the applicable
    actions in the priority order conflicts ([mergeable] is [false]),
    draft (worded as the action "Mark the PR as ready for review"),
    failing checks, missing approvals, pending checks, the last three
    worded with their count and a plural "s" above one, cut after the
    first three; so there are never more than three, and when at most
    three apply all of them are shown. *)
Theorem next_actions_priority_cap (p : Props) :
  Widget.getNextActions p = ActionSpec.expected p /\
  length (Widget.getNextActions p) <= 3 /\
  (length (ActionSpec.applicable p) <= 3 ->
   Widget.getNextActions p = ActionSpec.applicable p).
Proof.
  assert (Heq : Widget.getNextActions p = ActionSpec.expected p).
  { unfold ActionSpec.expected, ActionSpec.applicable, ActionSpec.priorities,
      ActionSpec.failing, ActionSpec.waiting, ActionSpec.missing.
    rewrite count_in_failing, count_in_pending.
    change (ActionSpec.given_checks p) with (Widget.checks p).
    unfold Widget.getNextActions, Widget.failingChecks, Widget.pendingChecks,
      Widget.conflicting, Widget.draft, Widget.fix_action,
      Widget.request_action, Widget.wait_action, Widget.plural,
      Widget.draft_action, conflicts_msg, ActionSpec.ending,
      ActionSpec.decimal, Js.num_to_string, Js.slice0, Js.push.
    destruct (Nat.ltb_spec (p_approvals p) (p_requiredApprovals p))
      as [Hlt | Hge].
    - destruct (p_requiredApprovals p - p_approvals p) as [ | [ | m]] eqn:E;
        [lia | | ];
        destruct (p_mergeable p) as [[ | ] | ], (p_draft p) as [[ | ] | ],
          (length (filter Widget.is_failing (Widget.checks p)))
            as [ | [ | k]],
          (length (filter Widget.is_pending (Widget.checks p)))
            as [ | [ | j]];
        reflexivity.
    - replace (p_requiredApprovals p - p_approvals p) with 0 by lia.
      destruct (p_mergeable p) as [[ | ] | ], (p_draft p) as [[ | ] | ],
        (length (filter Widget.is_failing (Widget.checks p)))
          as [ | [ | k]],
        (length (filter Widget.is_pending (Widget.checks p)))
          as [ | [ | j]];
        reflexivity. }
  split; [exact Heq | split].
  - rewrite Heq. unfold ActionSpec.expected. apply firstn_le_length.
  - intros Hle. rewrite Heq. unfold ActionSpec.expected.
    apply firstn_all2. exact Hle.
Qed.

Lemma scenario_C_checks (l : list Check) :
  map state l = [st_failure; st_pending] ->
  length (filter Readiness.is_failing l) = 1 /\
  length (filter Widget.is_failing l) = 1 /\
  length (filter Widget.is_pending l) = 1.
Proof.
  destruct l as [ | c1 [ | c2 [ | c3 l]]]; try discriminate.
  intros H. injection H as H1 H2.
  unfold filter, Readiness.is_failing, Widget.is_failing, Widget.is_pending.
  rewrite H1, H2. repeat split; reflexivity.
Qed.

(** C3, as the code has it: on every snapshot with the signals of
    Scenario C (mergeable true, not a draft, no approval, one required, one
    failing and one pending check) the status is not-ready, the issues are
    exactly "Needs 1 more approval(s)" then "1 check(s) failing", and the
    next actions are three: the failing-checks action, the approvals action
    and the pending-checks action. *)
Theorem scenario_C_verdict (s : Snapshot) :
  mergeable (prData s) = Some true ->
  draft (prData s) = false ->
  Readiness.approvals s = 0 ->
  Readiness.requiredApprovals s = 1 ->
  map state (Readiness.checks s) = [st_failure; st_pending] ->
  status (Readiness.classify s) = not_ready /\
  issues (Readiness.classify s) =
    ["Needs 1 more approval(s)"; "1 check(s) failing"] /\
  nextActions s =
    ["Fix 1 failing check"; "Request 1 more approval";
     "Wait for 1 pending check"].
Proof.
  intros Hm Hd Ha Hr Hc.
  destruct (scenario_C_checks _ Hc) as [Hf [Hwf Hwp]].
  assert (Hconf : Readiness.hasConflicts s = false)
    by (unfold Readiness.hasConflicts, has_conflicts; now rewrite Hm).
  repeat split.
  - unfold Readiness.classify, Readiness.after_checks,
      Readiness.after_approvals, Readiness.after_conflicts.
    unfold_rules. unfold Readiness.failingChecks.
    rewrite Hd, Hf, Ha, Hr, Hconf. reflexivity.
  - unfold Readiness.classify, Readiness.after_checks,
      Readiness.after_approvals, Readiness.after_conflicts.
    unfold_rules. unfold Readiness.failingChecks.
    rewrite Hd, Hf, Ha, Hr, Hconf. reflexivity.
  - unfold nextActions, Widget.getNextActions, Widget.failingChecks,
      Widget.pendingChecks, Widget.conflicting.
    rewrite widget_checks_reply, widget_draft_reply, Hwf, Hwp, Hd.
    unfold reply. cbn [p_mergeable p_approvals p_requiredApprovals].
    rewrite Hm, Ha, Hr. reflexivity.
Qed.

Lemma scenario_C_verdict_witness :
  status (Readiness.classify scenario_C) = not_ready /\
  issues (Readiness.classify scenario_C) =
    ["Needs 1 more approval(s)"; "1 check(s) failing"] /\
  nextActions scenario_C =
    ["Fix 1 failing check"; "Request 1 more approval";
     "Wait for 1 pending check"].
Proof.
  apply (scenario_C_verdict scenario_C); reflexivity.
Defined.

(** C3 as stated fails on Scenario C: the next actions are three, not two,
    because the pending check contributes the action "Wait for 1 pending
    check". *)
Lemma scenario_C_three_actions_counterexample :
  Readiness.approvals scenario_C = 0 /\
  Readiness.requiredApprovals scenario_C = 1 /\
  map state (Readiness.checks scenario_C) = [st_failure; st_pending] /\
  length (nextActions scenario_C) = 3 /\
  nth_error (nextActions scenario_C) 2 = Some "Wait for 1 pending check" /\
  length (nextActions scenario_C) <> 2.
Proof.
  repeat split; try reflexivity. vm_compute. discriminate.
Qed.

(** ** The two revisions of the tool *)

(** The required count is written differently in the two revisions
    ([|| 0] against [|| 1] under [Math.max(1, ...)]) and is the same. *)
Lemma legacy_required_approvals (s : Snapshot) :
  Nat.max 1 (Legacy.requestedReviewers s) = Readiness.requiredApprovals s.
Proof.
  unfold Legacy.requestedReviewers, Readiness.requiredApprovals,
    Js.opt_length_or, Js.or_num.
  destruct (requested_reviewers (prData s)) as [l | ]; [ | reflexivity].
  destruct (length l); reflexivity.
Qed.

Lemma legacy_approvals_agree (s : Snapshot) (a : Acc) :
  Legacy.rule_approvals s a = Readiness.rule_approvals s a.
Proof.
  unfold Legacy.rule_approvals, Readiness.rule_approvals.
  rewrite legacy_required_approvals. reflexivity.
Qed.

(** On completed runs that succeeded or failed, every run is in the
    completed total, and the runs that are not passing are the failing
    ones. *)
Lemma completed_counts (l : list CheckRun) :
  (forall c, In c l -> completed_success_or_failure c) ->
  length (filter Legacy.is_completed l) = length l /\
  length (filter (fun c => Legacy.is_completed c &&
                           Js.opt_str_eq (cr_conclusion c) "success") l)
    + length (filter Readiness.is_failing (map Readiness.to_check l))
    = length l.
Proof.
  induction l as [ | c l IH]; intros Hall; [split; reflexivity | ].
  destruct IH as [IHt IHp]; [intros; apply Hall; now right | ].
  destruct (Hall c (or_introl eq_refl)) as [Hst Hcl].
  assert (Hc : Legacy.is_completed c = true)
    by (unfold Legacy.is_completed; rewrite Hst; reflexivity).
  cbn [filter map length]. rewrite Hc.
  unfold Readiness.is_failing at 1, Readiness.to_check at 1,
    Readiness.normalize.
  cbn [state].
  destruct Hcl as [-> | ->]; simpl; split; lia.
Qed.

Lemma legacy_checks_agree (s : Snapshot) (a : Acc) :
  (forall c, In c (Js.or_empty (check_runs s)) ->
             completed_success_or_failure c) ->
  Legacy.rule_checks s a = Readiness.rule_checks s a.
Proof.
  intros Hall. destruct (completed_counts _ Hall) as [Ht Hp].
  unfold Legacy.rule_checks, Readiness.rule_checks, Legacy.totalChecks,
    Legacy.passingChecks, Legacy.checkRuns, Readiness.failingChecks,
    Readiness.checks.
  rewrite Ht.
  set (n := length (Js.or_empty (check_runs s))) in *.
  set (P := length (filter (fun c => _ && _) _)) in *.
  set (F := length (filter Readiness.is_failing _)) in *.
  replace (n - P) with F by lia.
  replace (Nat.ltb 0 n && Nat.ltb P n) with (Nat.ltb 0 F); [reflexivity | ].
  destruct (Nat.ltb_spec 0 F), (Nat.ltb_spec 0 n), (Nat.ltb_spec P n);
    simpl; try reflexivity; lia.
Qed.

(** C10: on every snapshot whose check runs have all completed with
    conclusion success or failure, the tool bodies of the two servers end
    with the same status and the same issues array. *)
Theorem revisions_agree_on_completed (s : Snapshot) :
  (forall c, In c (Js.or_empty (check_runs s)) ->
             completed_success_or_failure c) ->
  status (Legacy.classify s) = status (Readiness.classify s) /\
  issues (Legacy.classify s) = issues (Readiness.classify s).
Proof.
  intros Hall.
  assert (H : Legacy.classify s = Readiness.classify s).
  { unfold Legacy.classify, Readiness.classify, Readiness.after_checks,
      Readiness.after_approvals, Readiness.after_conflicts.
    rewrite legacy_checks_agree by exact Hall.
    rewrite legacy_approvals_agree. reflexivity. }
  rewrite H. split; reflexivity.
Qed.

Lemma revisions_agree_on_completed_witness :
  status (Legacy.classify completed_mixed) =
    status (Readiness.classify completed_mixed) /\
  issues (Legacy.classify completed_mixed) =
    issues (Readiness.classify completed_mixed).
Proof.
  apply (revisions_agree_on_completed completed_mixed).
  intros c Hc. vm_compute in Hc.
  destruct Hc as [<- | [<- | []]]; split; auto.
Defined.

(** * Further properties of the tool and the widgets *)

(** ** Closed form and order of the status *)

Lemma rule_step_rank (a b : Acc) :
  rule_step a b -> rank (status a) <= rank (status b).
Proof.
  intros [ | st msg Hst Hkeep]; [apply Nat.le_refl | ].
  cbn [status]. destruct (status a) eqn:Ha; simpl.
  - lia.
  - destruct st; simpl; try lia. congruence.
  - rewrite (Hkeep eq_refl). simpl. lia.
Qed.

Lemma readiness_status_closed (s : Snapshot) :
  status (Readiness.classify s) =
    verdict_of (Readiness.hasConflicts s) (draft (prData s))
      (Nat.ltb (Readiness.approvals s) (Readiness.requiredApprovals s))
      (Nat.ltb 0 (length (Readiness.failingChecks s))).
Proof.
  unfold Readiness.classify, Readiness.after_checks,
    Readiness.after_approvals, Readiness.after_conflicts.
  unfold_rules.
  destruct (Readiness.hasConflicts s), (draft (prData s)),
    (Nat.ltb (Readiness.approvals s) (Readiness.requiredApprovals s)),
    (Nat.ltb 0 (length (Readiness.failingChecks s))); reflexivity.
Qed.

Lemma legacy_status_closed (s : Snapshot) :
  status (Legacy.classify s) =
    verdict_of (Legacy.hasConflicts s) (draft (prData s))
      (Nat.ltb (Legacy.approvals s) (Nat.max 1 (Legacy.requestedReviewers s)))
      (Nat.ltb 0 (Legacy.totalChecks s)
       && Nat.ltb (Legacy.passingChecks s) (Legacy.totalChecks s)).
Proof.
  unfold Legacy.classify. unfold_rules.
  destruct (Legacy.hasConflicts s), (draft (prData s)),
    (Nat.ltb (Legacy.approvals s) (Nat.max 1 (Legacy.requestedReviewers s))),
    (Nat.ltb 0 (Legacy.totalChecks s)
     && Nat.ltb (Legacy.passingChecks s) (Legacy.totalChecks s));
    reflexivity.
Qed.

(** X1: the final status of either tool revision is a function of four
    facts only: it is not-ready when the pull request conflicts, is a
    draft, or both lacks approvals and has a failing check; it is pending
    when exactly one of the last two holds; it is ready otherwise. *)
Theorem status_closed_form (s : Snapshot) :
  status (Readiness.classify s) =
    verdict_of (Readiness.hasConflicts s) (draft (prData s))
      (Nat.ltb (Readiness.approvals s) (Readiness.requiredApprovals s))
      (Nat.ltb 0 (length (Readiness.failingChecks s))) /\
  status (Legacy.classify s) =
    verdict_of (Legacy.hasConflicts s) (draft (prData s))
      (Nat.ltb (Legacy.approvals s) (Nat.max 1 (Legacy.requestedReviewers s)))
      (Nat.ltb 0 (Legacy.totalChecks s)
       && Nat.ltb (Legacy.passingChecks s) (Legacy.totalChecks s)).
Proof.
  split; [apply readiness_status_closed | apply legacy_status_closed].
Qed.

(** X2: no conditional of either tool body ever improves the status:
    whatever the two locals hold before it, the status after it is at the
    same place or further along ready, pending, not-ready. *)
Theorem status_only_downgrades (s : Snapshot) (a : Acc) :
  (rank (status a) <= rank (status (Readiness.rule_conflicts s a)) /\
   rank (status a) <= rank (status (Readiness.rule_approvals s a)) /\
   rank (status a) <= rank (status (Readiness.rule_checks s a)) /\
   rank (status a) <= rank (status (Readiness.rule_draft s a))) /\
  (rank (status a) <= rank (status (Legacy.rule_conflicts s a)) /\
   rank (status a) <= rank (status (Legacy.rule_approvals s a)) /\
   rank (status a) <= rank (status (Legacy.rule_checks s a)) /\
   rank (status a) <= rank (status (Legacy.rule_draft s a))).
Proof.
  repeat split; apply rule_step_rank; auto with readiness.
Qed.

(** ** The two revisions on arbitrary check runs *)

Lemma failing_not_success (c : CheckRun) :
  Readiness.is_failing (Readiness.to_check c) = true ->
  Js.opt_str_eq (cr_conclusion c) "success" = false.
Proof.
  unfold Readiness.is_failing, Readiness.to_check, Readiness.normalize.
  cbn [state].
  destruct (Js.opt_str_eq (cr_conclusion c) "success");
    [discriminate | reflexivity].
Qed.

Lemma failing_within_completed (l : list CheckRun) :
  (forall c, In c l ->
             Readiness.is_failing (Readiness.to_check c) = true ->
             cr_status c = "completed") ->
  length (filter Readiness.is_failing (map Readiness.to_check l))
  + length (filter (fun c => Legacy.is_completed c &&
                             Js.opt_str_eq (cr_conclusion c) "success") l)
  <= length (filter Legacy.is_completed l).
Proof.
  induction l as [ | c l IH]; intros Hall; [apply Nat.le_refl | ].
  assert (IH' := IH (fun c' H => Hall c' (or_intror H))). clear IH.
  cbn [map filter].
  destruct (Readiness.is_failing (Readiness.to_check c)) eqn:Hf.
  - rewrite (failing_not_success c Hf).
    assert (Hc : Legacy.is_completed c = true).
    { unfold Legacy.is_completed.
      rewrite (Hall c (or_introl eq_refl) Hf). reflexivity. }
    rewrite Hc. cbn [andb length]. lia.
  - destruct (Legacy.is_completed c); cbn [andb length];
      [destruct (Js.opt_str_eq (cr_conclusion c) "success") | ];
      cbn [length]; lia.
Qed.

(** X3: when every check run that concluded in failure or was cancelled
    has status "completed", the revision with normalized checks never
    reports a worse status than the revision with the completed ratio. *)
Theorem readiness_never_stricter (s : Snapshot) :
  (forall c, In c (Js.or_empty (check_runs s)) ->
             Readiness.is_failing (Readiness.to_check c) = true ->
             cr_status c = "completed") ->
  rank (status (Readiness.classify s)) <= rank (status (Legacy.classify s)).
Proof.
  intros Hall. apply failing_within_completed in Hall.
  rewrite readiness_status_closed, legacy_status_closed.
  rewrite legacy_required_approvals.
  change (Legacy.hasConflicts s) with (Readiness.hasConflicts s).
  change (Legacy.approvals s) with (Readiness.approvals s).
  unfold Readiness.failingChecks, Readiness.checks, Legacy.totalChecks,
    Legacy.passingChecks, Legacy.checkRuns.
  set (F := length (filter Readiness.is_failing _)) in *.
  set (P := length (filter (fun c => _ && _) _)) in *.
  set (T := length (filter Legacy.is_completed _)) in *.
  destruct (Nat.ltb_spec 0 F) as [HF | HF].
  - replace (Nat.ltb 0 T) with true by (symmetry; apply Nat.ltb_lt; lia).
    replace (Nat.ltb P T) with true by (symmetry; apply Nat.ltb_lt; lia).
    apply Nat.le_refl.
  - destruct (Readiness.hasConflicts s), (draft (prData s)),
      (Nat.ltb (Readiness.approvals s) (Readiness.requiredApprovals s)),
      (Nat.ltb 0 T && Nat.ltb P T); simpl; lia.
Qed.

Lemma readiness_never_stricter_witness :
  rank (status (Readiness.classify neutral_and_failed)) <=
  rank (status (Legacy.classify neutral_and_failed)).
Proof.
  apply (readiness_never_stricter neutral_and_failed).
  intros c Hc _. vm_compute in Hc.
  destruct Hc as [<- | [<- | []]]; reflexivity.
Defined.

(** X4: in the first revision the passing count never exceeds the
    completed total, which never exceeds the number of check runs, and
    the reported number of failing checks, total minus passing, is the
    number of completed runs whose conclusion is not "success". *)
Theorem legacy_check_counts (s : Snapshot) :
  Legacy.passingChecks s <= Legacy.totalChecks s /\
  Legacy.totalChecks s <= length (Legacy.checkRuns s) /\
  Legacy.totalChecks s - Legacy.passingChecks s =
    length (filter (fun c => Legacy.is_completed c &&
                             negb (Js.opt_str_eq (cr_conclusion c) "success"))
                   (Legacy.checkRuns s)).
Proof.
  unfold Legacy.passingChecks, Legacy.totalChecks.
  induction (Legacy.checkRuns s) as [ | c l IH]; [simpl; lia | ].
  destruct IH as [IH1 [IH2 IH3]]. cbn [filter].
  destruct (Legacy.is_completed c),
    (Js.opt_str_eq (cr_conclusion c) "success");
    cbn [andb negb length]; repeat split; lia.
Qed.

(** ** Normalized checks *)

Lemma or_str_nonempty (a : option string) (b : string) :
  b <> "" -> Js.or_str a b <> "".
Proof.
  intros Hb. unfold Js.or_str. destruct a as [x | ]; [ | exact Hb].
  destruct (String.eqb_spec x ""); assumption.
Qed.

(** X5: every normalized check has a non-empty name: a run without a
    name, or with the empty name, is shown under its conclusion, and
    failing that under "Check". *)
Theorem check_name_nonempty (c : CheckRun) :
  name (Readiness.to_check c) <> "".
Proof.
  unfold Readiness.to_check. cbn [name].
  apply or_str_nonempty, or_str_nonempty. discriminate.
Qed.

(** X6: a check run counts as failing exactly when its conclusion is
    "failure" or "cancelled", and as passing exactly when it is
    "success"; every other conclusion (timed_out, neutral, skipped,
    action_required, none) is pending and never counts as failing. *)
Theorem failing_conclusions (c : CheckRun) :
  (Readiness.is_failing (Readiness.to_check c) = true <->
   cr_conclusion c = Some "failure" \/ cr_conclusion c = Some "cancelled") /\
  (state (Readiness.to_check c) = st_success <->
   cr_conclusion c = Some "success") /\
  (state (Readiness.to_check c) = st_pending <->
   cr_conclusion c <> Some "success" /\
   cr_conclusion c <> Some "failure" /\
   cr_conclusion c <> Some "cancelled").
Proof.
  unfold Readiness.is_failing, Readiness.to_check, Readiness.normalize,
    Js.opt_str_eq.
  cbn [state].
  destruct (cr_conclusion c) as [x | ].
  - destruct (String.eqb_spec x "success") as [-> | Hs];
      [repeat split; intros; try discriminate; try reflexivity;
       intuition congruence | ].
    destruct (String.eqb_spec x "failure") as [-> | Hf];
      [repeat split; intros; try discriminate; try reflexivity;
       intuition congruence | ].
    destruct (String.eqb_spec x "cancelled") as [-> | Hc];
      repeat split; intros; try discriminate; try reflexivity;
      intuition congruence.
  - repeat split; intros; try discriminate; intuition congruence.
Qed.

(** ** What the widget receives *)

Lemma widget_failing_reply (s : Snapshot) :
  Widget.failingChecks (reply s) = Readiness.failingChecks s.
Proof.
  unfold Widget.failingChecks. rewrite widget_checks_reply. reflexivity.
Qed.

Lemma widget_conflicting_reply (s : Snapshot) :
  Widget.conflicting (reply s) = Readiness.hasConflicts s.
Proof. reflexivity. Qed.

Lemma nonempty_or_undefined_none {A : Type} (l : list A) :
  nonempty_or_undefined l = None <-> l = [].
Proof.
  destruct l; unfold nonempty_or_undefined; simpl; split;
    intros; congruence.
Qed.

(** X7: the widget recovers what the tool computed, although the reply
    replaces an empty checks or issues array by an absent field: the
    checks, the failing checks, the draft flag and the issues it reads
    are those of the tool. *)
Theorem reply_round_trip (s : Snapshot) :
  Widget.checks (reply s) = Readiness.checks s /\
  Widget.failingChecks (reply s) = Readiness.failingChecks s /\
  Widget.draft (reply s) = draft (prData s) /\
  Js.or_empty (p_issues (reply s)) = issues (Readiness.classify s).
Proof.
  repeat split.
  - apply widget_checks_reply.
  - apply widget_failing_reply.
  - apply widget_draft_reply.
  - unfold reply. cbn [p_issues]. apply nonempty_or_undefined_or_empty.
Qed.

(** X8: the badge of the dashboard reads READY exactly when the reply
    carries no issues field, and BLOCKED exactly when the pull request
    conflicts, is a draft, or both lacks approvals and has a failing
    check. *)
Theorem badge_matches_issues (s : Snapshot) :
  (Dashboard.status_label (p_status (reply s)) = "READY" <->
   p_issues (reply s) = None) /\
  (Dashboard.status_label (p_status (reply s)) = "BLOCKED" <->
   mergeable (prData s) = Some false \/
   draft (prData s) = true \/
   (Readiness.approvals s < Readiness.requiredApprovals s /\
    Readiness.failingChecks s <> [])).
Proof.
  unfold reply. cbn [p_status p_issues]. split.
  - rewrite nonempty_or_undefined_none.
    pose proof (readiness_coherent s) as Hc. unfold coherent in Hc.
    rewrite Hc.
    destruct (status (Readiness.classify s)); simpl; split;
      intros; congruence.
  - rewrite readiness_status_closed.
    unfold Readiness.hasConflicts, has_conflicts.
    destruct (mergeable (prData s)) as [[ | ] | ], (draft (prData s));
      destruct (Nat.ltb_spec (Readiness.approvals s)
                             (Readiness.requiredApprovals s));
      destruct (Readiness.failingChecks s) eqn:Hf; simpl;
      split; intros; try discriminate; try tauto;
      try (right; right; split; [assumption | discriminate]);
      try (repeat match goal with
                  | H : _ \/ _ |- _ => destruct H
                  | H : _ /\ _ |- _ => destruct H
                  end; try discriminate; try congruence; try lia).
Qed.

(** ** Next actions against the verdict *)

Ltac action_heads :=
  unfold Widget.request_action, Widget.fix_action, Widget.wait_action,
    Widget.draft_action, conflicts_msg in *;
  cbn [append] in *.

Ltac split_In :=
  repeat match goal with
         | H : In _ (_ :: _) |- _ => destruct H as [H | H]
         | H : In _ [] |- _ => destruct H
         | H : _ /\ _ |- _ => destruct H
         end.

(** X9: the "Next Actions" block is empty exactly when the tool reports
    ready and no check is pending; so a pull request that is not ready
    always comes with at least one action. *)
Theorem next_actions_empty_iff (s : Snapshot) :
  nextActions s = [] <->
  status (Readiness.classify s) = ready /\
  Widget.pendingChecks (reply s) = [].
Proof.
  unfold nextActions, Widget.getNextActions.
  rewrite widget_failing_reply, widget_draft_reply, widget_conflicting_reply.
  change (p_approvals (reply s)) with (Readiness.approvals s).
  change (p_requiredApprovals (reply s)) with (Readiness.requiredApprovals s).
  rewrite readiness_status_closed.
  destruct (Readiness.hasConflicts s), (draft (prData s)),
    (Nat.ltb 0 (length (Readiness.failingChecks s))),
    (Nat.ltb (Readiness.approvals s) (Readiness.requiredApprovals s)),
    (Widget.pendingChecks (reply s)) as [ | c l];
    simpl; split; intros H; try discriminate;
    try (destruct H; discriminate); auto.
Qed.

(** X10: the cut after three never removes a conflicts, draft or
    failing-checks action: the conflicts action, when it applies, is the
    first one, and the draft and failing-checks actions, when they apply,
    are among those shown. *)
Theorem blocking_actions_never_cut (p : Props) :
  (Widget.conflicting p = true ->
   hd_error (Widget.getNextActions p) = Some conflicts_msg) /\
  (Widget.draft p = true ->
   In Widget.draft_action (Widget.getNextActions p)) /\
  (Widget.failingChecks p <> [] ->
   In (Widget.fix_action (length (Widget.failingChecks p)))
      (Widget.getNextActions p)).
Proof.
  unfold Widget.getNextActions.
  destruct (Widget.failingChecks p) as [ | c0 l0];
    destruct (Widget.conflicting p), (Widget.draft p),
      (Nat.ltb (p_approvals p) (p_requiredApprovals p)),
      (Nat.ltb 0 (length (Widget.pendingChecks p)));
    cbn [length Nat.ltb Nat.leb Js.push Js.slice0 app firstn hd_error In];
    repeat split; intros H; try discriminate; try congruence; auto.
Qed.

(** X11: when approvals are missing, the approvals action is shown unless
    conflicts, draft and failing checks all apply: only then is it cut,
    although the issue "Needs N more approval(s)" is still reported. *)
Theorem approvals_action_cut_iff (p : Props) :
  p_approvals p < p_requiredApprovals p ->
  (In (Widget.request_action (p_requiredApprovals p - p_approvals p))
      (Widget.getNextActions p) <->
   ~ (Widget.conflicting p = true /\ Widget.draft p = true /\
      Widget.failingChecks p <> [])).
Proof.
  intros Hlt. apply Nat.ltb_lt in Hlt.
  unfold Widget.getNextActions. rewrite Hlt.
  generalize (p_requiredApprovals p - p_approvals p). intros n.
  destruct (Widget.failingChecks p) as [ | c0 l0];
    destruct (Widget.conflicting p), (Widget.draft p),
      (Nat.ltb 0 (length (Widget.pendingChecks p)));
    cbn [length Nat.ltb Nat.leb Js.push Js.slice0 app firstn];
    (split;
     [ intros H [H1 [H2 H3]]; try discriminate; try congruence;
       split_In; action_heads; discriminate
     | intros H; try (exfalso; apply H; repeat split; discriminate);
       cbn [In]; auto 6 ]).
Qed.

Lemma approvals_action_cut_iff_witness :
  In "Request 1 more approval" (nextActions scenario_C) <->
  ~ (Widget.conflicting (reply scenario_C) = true /\
     Widget.draft (reply scenario_C) = true /\
     Widget.failingChecks (reply scenario_C) <> []).
Proof.
  apply (approvals_action_cut_iff (reply scenario_C)).
  vm_compute. lia.
Defined.

(** X12: the pending-checks action is shown exactly when some check is
    pending and at most two of conflicts, draft, failing checks and
    missing approvals apply. *)
Theorem wait_action_shown_iff (p : Props) :
  In (Widget.wait_action (length (Widget.pendingChecks p)))
     (Widget.getNextActions p) <->
  Widget.pendingChecks p <> [] /\
  (if Widget.conflicting p then 1 else 0)
  + (if Widget.draft p then 1 else 0)
  + (if Nat.ltb 0 (length (Widget.failingChecks p)) then 1 else 0)
  + (if Nat.ltb (p_approvals p) (p_requiredApprovals p) then 1 else 0) <= 2.
Proof.
  unfold Widget.getNextActions.
  generalize (p_requiredApprovals p - p_approvals p). intros n.
  generalize (length (Widget.failingChecks p)). intros k.
  destruct (Widget.pendingChecks p) as [ | c0 l0];
    destruct (Widget.conflicting p), (Widget.draft p), (Nat.ltb 0 k),
      (Nat.ltb (p_approvals p) (p_requiredApprovals p));
    cbn [length Nat.ltb Nat.leb Js.push Js.slice0 app firstn Nat.add];
    (split;
     [ intros H; split_In; try (split; [discriminate | lia]);
       action_heads; discriminate
     | intros [H1 H2]; try congruence; try lia; cbn [In]; auto 6 ]).
Qed.

(** ** The check metrics of the dashboard *)

Lemma check_partition (l : list Check) :
  length (filter Widget.is_failing l) + length (filter Widget.is_pending l)
  + length (filter Dashboard.is_passing l) = length l.
Proof.
  induction l as [ | c l IH]; [reflexivity | ].
  cbn [filter]. unfold Widget.is_failing at 1, Widget.is_pending at 1,
    Dashboard.is_passing at 1.
  destruct (state c); cbn [length]; lia.
Qed.

Lemma filter_nil_iff {A : Type} (f : A -> bool) (l : list A) :
  filter f l = [] <-> forall x, In x l -> f x = false.
Proof.
  induction l as [ | a l IH]; simpl.
  - split; [intros _ x [] | reflexivity].
  - destruct (f a) eqn:Ha; split.
    + discriminate.
    + intros H. specialize (H a (or_introl eq_refl)). congruence.
    + intros H x [<- | Hx]; [exact Ha | now apply IH].
    + intros H. apply IH. intros x Hx. apply H. now right.
Qed.

(** X13: the widget sorts every check into exactly one of failing,
    pending and passing; so the passing count never exceeds the total of
    the checks bar, and the number in "Check Details (n)" is the number
    of checks that did not succeed. *)
Theorem checks_partition (p : Props) :
  length (Widget.failingChecks p) + length (Widget.pendingChecks p)
  + length (Dashboard.passingChecks p) = length (Widget.checks p) /\
  length (Dashboard.passingChecks p) <= length (Widget.checks p) /\
  Dashboard.check_details_count p =
    length (Widget.checks p) - length (Dashboard.passingChecks p).
Proof.
  unfold Dashboard.check_details_count, Widget.failingChecks,
    Widget.pendingChecks, Dashboard.passingChecks.
  pose proof (check_partition (Widget.checks p)) as H.
  repeat split; lia.
Qed.

(** X14: the "Check Details" list holds exactly the checks that did not
    succeed, the failing ones before the pending ones; the block is
    hidden, and the checks bar is green, exactly when every check
    succeeded (in particular when there is no check). *)
Theorem check_details_complete (p : Props) :
  (forall c, In c (Dashboard.check_details p) <->
             In c (Widget.checks p) /\ state c <> st_success) /\
  (Dashboard.check_details_shown p = false <->
   forall c, In c (Widget.checks p) -> state c = st_success) /\
  (Dashboard.checks_bar_color p = "#10b981" <->
   forall c, In c (Widget.checks p) -> state c = st_success).
Proof.
  assert (Hall : (Widget.failingChecks p = [] /\ Widget.pendingChecks p = [])
                 <-> forall c, In c (Widget.checks p) -> state c = st_success).
  { unfold Widget.failingChecks, Widget.pendingChecks.
    rewrite !filter_nil_iff. split.
    - intros [Hf Hp] c Hc. specialize (Hf c Hc). specialize (Hp c Hc).
      unfold Widget.is_failing in Hf. unfold Widget.is_pending in Hp.
      destruct (state c); congruence.
    - intros H; split; intros c Hc; specialize (H c Hc);
        unfold Widget.is_failing, Widget.is_pending; rewrite H; reflexivity. }
  repeat split.
  - unfold Dashboard.check_details in H.
    apply in_app_or in H. destruct H as [H | H];
      apply filter_In in H; tauto.
  - unfold Dashboard.check_details, Widget.failingChecks,
      Widget.pendingChecks in H.
    apply in_app_or in H. destruct H as [H | H];
      apply filter_In in H; destruct H as [_ H];
      unfold Widget.is_failing, Widget.is_pending in H;
      destruct (state c); discriminate.
  - intros [Hc Hs]. unfold Dashboard.check_details, Widget.failingChecks,
      Widget.pendingChecks.
    apply in_or_app. rewrite !filter_In.
    unfold Widget.is_failing, Widget.is_pending.
    destruct (state c); try congruence; auto.
  - intros H. apply Hall. unfold Dashboard.check_details_shown in H.
    destruct (Widget.failingChecks p), (Widget.pendingChecks p);
      simpl in H; try discriminate; auto.
  - intros H. apply Hall in H. destruct H as [Hf Hp].
    unfold Dashboard.check_details_shown. rewrite Hf, Hp. reflexivity.
  - intros H. apply Hall. unfold Dashboard.checks_bar_color in H.
    destruct (Widget.failingChecks p), (Widget.pendingChecks p);
      simpl in H; try discriminate; auto.
  - intros H. apply Hall in H. destruct H as [Hf Hp].
    unfold Dashboard.checks_bar_color. rewrite Hf, Hp. reflexivity.
Qed.

(** ** Relative dates *)

(** X15: [formatDate] says "just now" for anything younger than one hour
    (a date in the future included), a number of hours from 1 to 23
    below one day, a number of days from 1 to 6 below one week, and falls
    back to the calendar date from one week on and for a date that does
    not parse. *)
Theorem formatDate_ranges (now d : Z) :
  ((now - d < 3600000)%Z ->
   Dashboard.formatDate now (Some d) = Dashboard.just_now) /\
  ((3600000 <= now - d < 86400000)%Z ->
   Dashboard.formatDate now (Some d) =
     Dashboard.hours_ago ((now - d) / 3600000) /\
   (1 <= (now - d) / 3600000 <= 23)%Z) /\
  ((86400000 <= now - d < 604800000)%Z ->
   Dashboard.formatDate now (Some d) =
     Dashboard.days_ago ((now - d) / 86400000) /\
   (1 <= (now - d) / 86400000 <= 6)%Z) /\
  ((604800000 <= now - d)%Z ->
   Dashboard.formatDate now (Some d) = Dashboard.locale_date) /\
  Dashboard.formatDate now None = Dashboard.locale_date.
Proof.
  unfold Dashboard.formatDate. cbv zeta.
  change (1000 * 60 * 60)%Z with 3600000%Z.
  assert (Hdd : (((now - d) / 3600000) / 24 = (now - d) / 86400000)%Z)
    by (rewrite Z.div_div by lia; reflexivity).
  rewrite Hdd.
  set (x := (now - d)%Z).
  assert (Hh := Z.div_mod x 3600000 ltac:(lia)).
  assert (Hhr := Z.mod_pos_bound x 3600000 ltac:(lia)).
  assert (Hd := Z.div_mod x 86400000 ltac:(lia)).
  assert (Hdr := Z.mod_pos_bound x 86400000 ltac:(lia)).
  repeat split; try intros H;
    repeat match goal with
           | |- context [Z.ltb ?a ?b] => destruct (Z.ltb_spec a b)
           end; try reflexivity; try lia.
Qed.

(** ** Failed fetches *)

Lemma required_at_least_one (s : Snapshot) : 1 <= Readiness.requiredApprovals s.
Proof. unfold Readiness.requiredApprovals. apply Nat.le_max_l. Qed.

(** X16: when the reviews request fails, the tool counts no approval, so
    the pull request is never reported ready: the issues contain "Needs N
    more approval(s)" with N the full required count. *)
Theorem failed_reviews_never_ready (f : Fetched) :
  ok (reviewsResponse f) = false ->
  Readiness.approvals (fetched_snapshot f) = 0 /\
  status (Readiness.classify (fetched_snapshot f)) <> ready /\
  In (approvals_msg (Readiness.requiredApprovals (fetched_snapshot f)))
     (issues (Readiness.classify (fetched_snapshot f))).
Proof.
  intros Hok.
  assert (Ha : Readiness.approvals (fetched_snapshot f) = 0).
  { unfold Readiness.approvals, fetched_snapshot, fetched_reviews.
    cbn [reviews]. rewrite Hok. reflexivity. }
  set (s := fetched_snapshot f) in *.
  pose proof (required_at_least_one s) as Hr.
  assert (Hin : In (approvals_msg (Readiness.requiredApprovals s))
                   (issues (Readiness.classify s))).
  { unfold Readiness.classify, Readiness.after_checks.
    do 2 (eapply rule_step_keeps_issue; [solve [auto with readiness] | ]).
    unfold Readiness.after_approvals, Readiness.rule_approvals.
    rewrite Ha.
    replace (Nat.ltb 0 (Readiness.requiredApprovals s)) with true
      by (symmetry; apply Nat.ltb_lt; lia).
    cbn [issues]. rewrite Nat.sub_0_r. apply In_push. now right. }
  split; [exact Ha | split; [ | exact Hin]].
  intros Hready. apply (readiness_coherent s) in Hready.
  rewrite Hready in Hin. exact Hin.
Qed.

Lemma failed_reviews_never_ready_witness :
  Readiness.approvals (fetched_snapshot reviews_failed) = 0 /\
  status (Readiness.classify (fetched_snapshot reviews_failed)) <> ready /\
  In (approvals_msg (Readiness.requiredApprovals
                       (fetched_snapshot reviews_failed)))
     (issues (Readiness.classify (fetched_snapshot reviews_failed))).
Proof.
  apply (failed_reviews_never_ready reviews_failed). reflexivity.
Defined.

(** X17: when the check-runs request fails, or its body has no
    [check_runs], the tool sees no check at all: the checks rule changes
    nothing, the reply carries no checks field, and the widget shows
    neither a failing nor a pending check. *)
Theorem failed_checks_are_invisible (f : Fetched) :
  ok (checksResponse f) = false \/ json (checksResponse f) = None ->
  Readiness.checks (fetched_snapshot f) = [] /\
  (forall a, Readiness.rule_checks (fetched_snapshot f) a = a) /\
  p_checks (reply (fetched_snapshot f)) = None /\
  Widget.failingChecks (reply (fetched_snapshot f)) = [] /\
  Widget.pendingChecks (reply (fetched_snapshot f)) = [].
Proof.
  intros Hok.
  assert (Hc : Readiness.checks (fetched_snapshot f) = []).
  { unfold Readiness.checks, fetched_snapshot, fetched_check_runs.
    cbn [check_runs].
    destruct Hok as [-> | Hj]; [reflexivity | ].
    rewrite Hj. destruct (ok (checksResponse f)); reflexivity. }
  repeat split.
  - exact Hc.
  - intros a. unfold Readiness.rule_checks, Readiness.failingChecks.
    rewrite Hc. reflexivity.
  - unfold reply. cbn [p_checks]. rewrite Hc. reflexivity.
  - rewrite widget_failing_reply. unfold Readiness.failingChecks.
    rewrite Hc. reflexivity.
  - unfold Widget.pendingChecks. rewrite widget_checks_reply, Hc.
    reflexivity.
Qed.

Lemma failed_checks_are_invisible_witness :
  Readiness.checks (fetched_snapshot checks_failed) = [] /\
  (forall a, Readiness.rule_checks (fetched_snapshot checks_failed) a = a) /\
  p_checks (reply (fetched_snapshot checks_failed)) = None /\
  Widget.failingChecks (reply (fetched_snapshot checks_failed)) = [] /\
  Widget.pendingChecks (reply (fetched_snapshot checks_failed)) = [].
Proof.
  apply (failed_checks_are_invisible checks_failed). left. reflexivity.
Defined.

(** ** Changed files *)

(** X18: the widget lists the first five fetched file names, in order,
    and never more than five; the "Files Changed" block is hidden exactly
    when no file was fetched; and when the "... and N more" line is shown,
    the listed files and N add up to the changed-files count. *)
Theorem top_files_cap (f : Fetched) :
  Dashboard.shown_files (files_reply f) =
    map filename (firstn 5 (filesData f)) /\
  length (Dashboard.shown_files (files_reply f)) =
    Nat.min 5 (length (filesData f)) /\
  (Dashboard.files_shown (files_reply f) = false <-> filesData f = []) /\
  (forall n, Dashboard.more_files (files_reply f) = Some n ->
             0 < n /\
             length (Dashboard.shown_files (files_reply f)) + n =
               changedFilesCount f).
Proof.
  assert (Hs : Dashboard.shown_files (files_reply f) =
               map filename (firstn 5 (filesData f))).
  { unfold Dashboard.shown_files, files_reply. cbn [p_topFiles].
    apply nonempty_or_undefined_or_empty. }
  assert (Hl : length (Dashboard.shown_files (files_reply f)) =
               Nat.min 5 (length (filesData f))).
  { rewrite Hs, length_map. apply length_firstn. }
  split; [exact Hs | split; [exact Hl | split]].
  - unfold Dashboard.files_shown. rewrite Hl.
    destruct (filesData f) as [ | x l]; [simpl; tauto | ].
    cbn [length].
    destruct (Nat.ltb_spec 0 (Nat.min 5 (S (length l)))) as [H | H];
      [split; intros; discriminate | lia].
  - intros n. unfold Dashboard.more_files.
    change (p_changedFilesCount (files_reply f)) with (changedFilesCount f).
    destruct (Dashboard.files_shown (files_reply f)); [ | discriminate].
    destruct (Nat.ltb_spec (length (Dashboard.shown_files (files_reply f)))
                           (changedFilesCount f)) as [Hlt | Hge];
      intros Hn; [ | discriminate].
    injection Hn as <-. lia.
Qed.

(** X19: when the reported changed-files count is the number of fetched
    files, the "... and N more" line appears exactly for more than five
    files, with N the number of files beyond the fifth. *)
Theorem more_files_beyond_five (f : Fetched) :
  f_changed_files f = Some (length (filesData f)) ->
  Dashboard.more_files (files_reply f) =
    if Nat.ltb 5 (length (filesData f))
    then Some (length (filesData f) - 5)
    else None.
Proof.
  intros Hc. unfold Dashboard.more_files, Dashboard.files_shown.
  assert (Hl : length (Dashboard.shown_files (files_reply f)) =
               Nat.min 5 (length (filesData f))).
  { unfold Dashboard.shown_files, files_reply. cbn [p_topFiles].
    rewrite nonempty_or_undefined_or_empty. unfold topFiles, Js.slice0.
    rewrite length_map. apply length_firstn. }
  rewrite Hl.
  change (p_changedFilesCount (files_reply f)) with (changedFilesCount f).
  unfold changedFilesCount, Js.or_num. rewrite Hc.
  destruct (Nat.eqb_spec (length (filesData f)) 0) as [-> | Hn];
    [reflexivity | ].
  replace (Nat.ltb 0 (Nat.min 5 (length (filesData f)))) with true
    by (symmetry; apply Nat.ltb_lt; lia).
  destruct (Nat.ltb_spec 5 (length (filesData f)));
    destruct (Nat.ltb_spec (Nat.min 5 (length (filesData f)))
                           (length (filesData f)));
    try lia; f_equal; lia.
Qed.

Lemma more_files_beyond_five_witness :
  Dashboard.more_files (files_reply seven_files) = Some 2.
Proof.
  apply (more_files_beyond_five seven_files). reflexivity.
Defined.

(** ** The first widget against the first tool *)

(** X20: on the reply of the first tool, the denominator the first widget
    shows beside the approvals is the required count the tool compared
    against; the line under the status text is rendered exactly when the
    status is not ready; whenever it is rendered it ends with the number
    of issues; and the text "Ready to merge" appears exactly when there
    is no issue. *)
Theorem legacy_widget_consistent (s : Snapshot) :
  LegacyWidget.approvals_denominator (legacy_reply s) =
    Nat.max 1 (Legacy.requestedReviewers s) /\
  (LegacyWidget.subtitle_shown (legacy_reply s) = true <->
   status (Legacy.classify s) <> ready) /\
  (LegacyWidget.subtitle_shown (legacy_reply s) = true ->
   last (LegacyWidget.subtitle_parts (legacy_reply s)) "" =
     Js.num_to_string (length (issues (Legacy.classify s))) ++ " issue(s)") /\
  (LegacyWidget.status_text (legacy_reply s) = "Ready to merge" <->
   issues (Legacy.classify s) = []).
Proof.
  pose proof (legacy_coherent s) as Hc. unfold coherent in Hc.
  pose proof (legacy_status_closed s) as Hst.
  unfold LegacyWidget.approvals_denominator, LegacyWidget.subtitle_shown,
    LegacyWidget.subtitle_parts, LegacyWidget.requestedReviewers,
    LegacyWidget.draft, LegacyWidget.hasConflicts, LegacyWidget.issues,
    LegacyWidget.default, LegacyWidget.status_text, legacy_reply.
  cbn [lp_requestedReviewers lp_draft lp_hasConflicts lp_issues lp_status].
  split; [ | split; [ | split]].
  - unfold Js.or_num. destruct (Legacy.requestedReviewers s); reflexivity.
  - destruct (issues (Legacy.classify s)) as [ | i l] eqn:Hi.
    + assert (Hr : status (Legacy.classify s) = ready) by (now apply Hc).
      rewrite Hr in Hst. rewrite Hr.
      destruct (Legacy.hasConflicts s), (draft (prData s));
        simpl in *; try discriminate.
      split; [discriminate | intros H; now elim H].
    + rewrite !orb_true_r. split; [ | reflexivity].
      intros _ Hr. apply Hc in Hr. discriminate.
  - destruct (issues (Legacy.classify s)) as [ | i l] eqn:Hi.
    + assert (Hr : status (Legacy.classify s) = ready) by (now apply Hc).
      rewrite Hr in Hst.
      destruct (Legacy.hasConflicts s), (draft (prData s));
        simpl in *; try discriminate.
    + intros _. cbn [length Nat.ltb Nat.leb].
      destruct (draft (prData s)), (Legacy.hasConflicts s); reflexivity.
  - rewrite Hc. destruct (status (Legacy.classify s)); simpl;
      split; intros; congruence.
Qed.

(** ** Which issue is reported *)

Lemma succ_not_nil (d : Decimal.uint) : Decimal.Little.succ d <> Decimal.Nil.
Proof. destruct d; discriminate. Qed.

Lemma to_little_uint_not_nil (n : nat) (acc : Decimal.uint) :
  acc <> Decimal.Nil -> Nat.to_little_uint n acc <> Decimal.Nil.
Proof.
  revert acc. induction n as [ | n IH]; intros acc Hacc; [exact Hacc | ].
  simpl. apply IH, succ_not_nil.
Qed.

Lemma revapp_not_nil (d acc : Decimal.uint) :
  acc <> Decimal.Nil -> Decimal.revapp d acc <> Decimal.Nil.
Proof.
  revert acc. induction d; intros acc Hacc; simpl;
    [exact Hacc | apply IHd; discriminate ..].
Qed.

Lemma to_uint_not_nil (n : nat) : Nat.to_uint n <> Decimal.Nil.
Proof.
  unfold Nat.to_uint, Decimal.rev.
  pose proof (to_little_uint_not_nil n (Decimal.D0 Decimal.Nil)
                ltac:(discriminate)) as H.
  destruct (Nat.to_little_uint n (Decimal.D0 Decimal.Nil));
    [congruence | simpl; apply revapp_not_nil; discriminate ..].
Qed.

(** The decimal text of a number starts with a digit. *)
Lemma num_to_string_head (n : nat) :
  exists b0 b1 b2 b3 rest,
    Js.num_to_string n =
    String (Ascii.Ascii b0 b1 b2 b3 true true false false) rest.
Proof.
  unfold Js.num_to_string. pose proof (to_uint_not_nil n) as H.
  destruct (Nat.to_uint n); [congruence | simpl; do 5 eexists; reflexivity ..].
Qed.

Lemma checks_msg_head (n : nat) :
  exists b0 b1 b2 b3 rest,
    checks_msg n = String (Ascii.Ascii b0 b1 b2 b3 true true false false) rest.
Proof.
  unfold checks_msg.
  destruct (num_to_string_head n) as (b0 & b1 & b2 & b3 & rest & ->).
  simpl. do 5 eexists. reflexivity.
Qed.

Lemma has_conflicts_iff (p : PrData) :
  has_conflicts p = true <-> mergeable p = Some false.
Proof.
  unfold has_conflicts.
  destruct (mergeable p) as [[ | ] | ]; split; intros; congruence.
Qed.

Lemma length_pos_iff {A : Type} (l : list A) : 0 < length l <-> l <> [].
Proof.
  destruct l; simpl; split; intros; try congruence; lia.
Qed.

Lemma approvals_not_conflicts (n : nat) : approvals_msg n <> conflicts_msg.
Proof. unfold approvals_msg, conflicts_msg. cbn [append]. discriminate. Qed.

Lemma approvals_not_draft (n : nat) : approvals_msg n <> draft_msg.
Proof. unfold approvals_msg, draft_msg. cbn [append]. discriminate. Qed.

Lemma checks_not_conflicts (k : nat) : checks_msg k <> conflicts_msg.
Proof.
  destruct (checks_msg_head k) as (b0 & b1 & b2 & b3 & rest & ->).
  unfold conflicts_msg. discriminate.
Qed.

Lemma checks_not_draft (k : nat) : checks_msg k <> draft_msg.
Proof.
  destruct (checks_msg_head k) as (b0 & b1 & b2 & b3 & rest & ->).
  unfold draft_msg. discriminate.
Qed.

Lemma checks_not_approvals (k n : nat) : checks_msg k <> approvals_msg n.
Proof.
  destruct (checks_msg_head k) as (b0 & b1 & b2 & b3 & rest & ->).
  unfold approvals_msg. cbn [append]. discriminate.
Qed.

Lemma conflicts_not_draft : conflicts_msg <> draft_msg.
Proof. unfold conflicts_msg, draft_msg. discriminate. Qed.

(** Membership in the issues array, rule by rule. *)
Lemma In_fired (x msg : string) (b : bool) (st : Status) (a : Acc) :
  In x (issues (if b
                then {| status := st; issues := Js.push (issues a) msg |}
                else a)) <->
  In x (issues a) \/ (b = true /\ x = msg).
Proof.
  destruct b; cbn [issues].
  - rewrite In_push. intuition.
  - intuition discriminate.
Qed.

Lemma In_readiness_issues (x : string) (s : Snapshot) :
  In x (issues (Readiness.classify s)) <->
  (Readiness.hasConflicts s = true /\ x = conflicts_msg) \/
  (Nat.ltb (Readiness.approvals s) (Readiness.requiredApprovals s) = true /\
   x = approvals_msg (Readiness.requiredApprovals s - Readiness.approvals s))
  \/
  (Nat.ltb 0 (length (Readiness.failingChecks s)) = true /\
   x = checks_msg (length (Readiness.failingChecks s))) \/
  (draft (prData s) = true /\ x = draft_msg).
Proof.
  unfold Readiness.classify, Readiness.after_checks,
    Readiness.after_approvals, Readiness.after_conflicts.
  unfold_rules. rewrite !In_fired. cbn [issues acc_init In]. tauto.
Qed.

Lemma conflicts_issue_iff (s : Snapshot) :
  In conflicts_msg (issues (Readiness.classify s)) <->
  mergeable (prData s) = Some false.
Proof.
  rewrite <- has_conflicts_iff.
  change (has_conflicts (prData s)) with (Readiness.hasConflicts s).
  rewrite In_readiness_issues. split.
  - intros [[H _] | [[_ H] | [[_ H] | [_ H]]]]; [exact H | exfalso ..].
    + symmetry in H. now apply approvals_not_conflicts in H.
    + symmetry in H. now apply checks_not_conflicts in H.
    + now apply conflicts_not_draft in H.
  - intros H. left. split; [exact H | reflexivity].
Qed.

Lemma draft_issue_iff (s : Snapshot) :
  In draft_msg (issues (Readiness.classify s)) <-> draft (prData s) = true.
Proof.
  rewrite In_readiness_issues. split.
  - intros [[_ H] | [[_ H] | [[_ H] | [H _]]]]; [exfalso .. | exact H].
    + symmetry in H. now apply conflicts_not_draft in H.
    + symmetry in H. now apply approvals_not_draft in H.
    + symmetry in H. now apply checks_not_draft in H.
  - intros H. right; right; right. split; [exact H | reflexivity].
Qed.

Lemma approvals_issue_iff (s : Snapshot) :
  (exists n, In (approvals_msg n) (issues (Readiness.classify s))) <->
  Readiness.approvals s < Readiness.requiredApprovals s.
Proof.
  rewrite <- Nat.ltb_lt. split.
  - intros [n H]. apply In_readiness_issues in H.
    destruct H as [[_ H] | [[H _] | [[_ H] | [_ H]]]];
      [exfalso | exact H | exfalso ..].
    + now apply approvals_not_conflicts in H.
    + symmetry in H. now apply checks_not_approvals in H.
    + now apply approvals_not_draft in H.
  - intros H. eexists. apply In_readiness_issues.
    right; left. split; [exact H | reflexivity].
Qed.

Lemma checks_issue_iff (s : Snapshot) :
  (exists n, In (checks_msg n) (issues (Readiness.classify s))) <->
  Readiness.failingChecks s <> [].
Proof.
  rewrite <- length_pos_iff, <- Nat.ltb_lt. split.
  - intros [n H]. apply In_readiness_issues in H.
    destruct H as [[_ H] | [[_ H] | [[H _] | [_ H]]]];
      [exfalso .. | exact H | exfalso].
    + now apply checks_not_conflicts in H.
    + now apply checks_not_approvals in H.
    + now apply checks_not_draft in H.
  - intros H. eexists. apply In_readiness_issues.
    right; right; left. split; [exact H | reflexivity].
Qed.

(** X21: an issue is reported only for its own condition: the conflicts
    message is among the issues exactly when [mergeable] is [false], the
    draft message exactly when the draft flag is set, an approvals message
    exactly when approvals are missing, and a failing-checks message
    exactly when some check is failing. *)
Theorem issue_reported_iff (s : Snapshot) :
  (In conflicts_msg (issues (Readiness.classify s)) <->
   mergeable (prData s) = Some false) /\
  (In draft_msg (issues (Readiness.classify s)) <->
   draft (prData s) = true) /\
  ((exists n, In (approvals_msg n) (issues (Readiness.classify s))) <->
   Readiness.approvals s < Readiness.requiredApprovals s) /\
  ((exists n, In (checks_msg n) (issues (Readiness.classify s))) <->
   Readiness.failingChecks s <> []).
Proof.
  split; [apply conflicts_issue_iff | ].
  split; [apply draft_issue_iff | ].
  split; [apply approvals_issue_iff | apply checks_issue_iff].
Qed.

(** X22: the indicators the dashboard computes for itself agree with the
    issues of the tool: the merge label reads "Conflicts" exactly when the
    conflicts issue is reported, the approvals bar is amber exactly when
    an approvals issue is reported, and the checks bar is red exactly when
    a failing-checks issue is reported. *)
Theorem indicators_match_issues (s : Snapshot) :
  (Dashboard.mergeable_label (reply s) = "Conflicts" <->
   In conflicts_msg (issues (Readiness.classify s))) /\
  (Dashboard.approvals_bar_color (reply s) = "#f59e0b" <->
   exists n, In (approvals_msg n) (issues (Readiness.classify s))) /\
  (Dashboard.checks_bar_color (reply s) = "#ef4444" <->
   exists n, In (checks_msg n) (issues (Readiness.classify s))).
Proof.
  rewrite conflicts_issue_iff, approvals_issue_iff, checks_issue_iff.
  unfold Dashboard.mergeable_label, Dashboard.approvals_bar_color,
    Dashboard.checks_bar_color.
  rewrite widget_failing_reply.
  change (p_mergeable (reply s)) with (mergeable (prData s)).
  change (p_approvals (reply s)) with (Readiness.approvals s).
  change (p_requiredApprovals (reply s)) with (Readiness.requiredApprovals s).
  split; [ | split].
  - destruct (mergeable (prData s)) as [[ | ] | ]; split; intros;
      congruence.
  - destruct (Nat.leb_spec (Readiness.requiredApprovals s)
                           (Readiness.approvals s));
      split; intros; try discriminate; try lia; reflexivity.
  - destruct (Readiness.failingChecks s) as [ | c l];
      cbn [length Nat.ltb Nat.leb].
    + destruct (length (Widget.pendingChecks (reply s)));
        (split; intros H; [discriminate H | now elim H]).
    + split; intros; [discriminate | reflexivity].
Qed.

(** ** More reviews *)

Lemma count_approvals_app (l : list Review) (r : Review) :
  count_approvals l <= count_approvals (l ++ [r])%list.
Proof.
  unfold count_approvals. rewrite filter_app, length_app. lia.
Qed.

(** X23: one more review at the end of the review list, whatever its
    state, never makes the status worse. *)
Theorem more_reviews_never_hurt (s : Snapshot) (r : Review) :
  rank (status (Readiness.classify (with_review r s))) <=
  rank (status (Readiness.classify s)).
Proof.
  rewrite !readiness_status_closed.
  change (Readiness.hasConflicts (with_review r s))
    with (Readiness.hasConflicts s).
  change (draft (prData (with_review r s))) with (draft (prData s)).
  change (Readiness.requiredApprovals (with_review r s))
    with (Readiness.requiredApprovals s).
  change (Readiness.failingChecks (with_review r s))
    with (Readiness.failingChecks s).
  pose proof (count_approvals_app (reviews s) r) as Hle.
  change (count_approvals (reviews s)) with (Readiness.approvals s) in Hle.
  change (count_approvals (reviews s ++ [r])%list)
    with (Readiness.approvals (with_review r s)) in Hle.
  destruct (Nat.ltb_spec (Readiness.approvals (with_review r s))
                         (Readiness.requiredApprovals s)) as [H1 | H1];
    destruct (Nat.ltb_spec (Readiness.approvals s)
                           (Readiness.requiredApprovals s)) as [H2 | H2];
    try lia;
    destruct (Readiness.hasConflicts s), (draft (prData s)),
      (Nat.ltb 0 (length (Readiness.failingChecks s))); simpl; lia.
Qed.
